(** * Ultimaker printer sensor platform (custom_components/ultimaker/sensor.py)

    A shallow embedding of the polling data source [UltimakerStatusData] and
    of the metric holder [UltimakerStatusSensor], with the Python run-time
    behaviour they rely on (truthiness, subscripts, [dict.get], exceptions,
    binary64 floats), followed by the properties of the fetch cycle and of
    the field extraction. *)

From Stdlib Require Import ZArith String Ascii List Bool Lia.
From Stdlib Require Import Floats.PrimFloat Floats.SpecFloat Floats.FloatOps
  Floats.FloatAxioms.
From stdpp Require Import gmap strings list fin_maps.

Set Warnings "-inexact-float,-register-all".
Open Scope string_scope.
Open Scope Z_scope.

(** ** Python values, exceptions and the operations the module uses *)

Module Py.

(** The objects that flow through the module: what [json()] produces
    (None, bool, int, float, str, list, dict with string keys) and the
    [datetime] stored under [sampleTime].  A float is an IEEE binary64
    number; a [datetime] is a count of microseconds.  Characters are
    [ascii]. *)
Inductive val :=
| VNone
| VBool (b : bool)
| VInt (z : Z)
| VFloat (f : float)
| VStr (s : string)
| VList (l : list val)
| VDict (d : gmap string val)
| VDatetime (t : Z).

(** The exception classes that occur.  [ServerTimeoutError] derives from both
    [aiohttp.ClientError] and [asyncio.TimeoutError]; all of them derive from
    [Exception].  Task cancellation is not modelled. *)
Inductive exn :=
| ClientError
| ServerTimeoutError
| TimeoutError
| UnboundLocalError
| IndexError
| KeyError
| TypeError
| AttributeError
| ValueError
| OverflowError
| StopIteration
| RuntimeError
| OtherError.

Definition is_ClientError (e : exn) : bool :=
  match e with ClientError | ServerTimeoutError => true | _ => false end.

Definition is_TimeoutError (e : exn) : bool :=
  match e with ServerTimeoutError | TimeoutError => true | _ => false end.

Inductive result (A : Type) :=
| Ok (a : A)
| Raise (e : exn).
Arguments Ok {A} a.
Arguments Raise {A} e.

Definition bind {A B} (r : result A) (k : A -> result B) : result B :=
  match r with Ok a => k a | Raise e => Raise e end.

(** [bool(v)] *)
Definition truthy (v : val) : bool :=
  match v with
  | VNone => false
  | VBool b => b
  | VInt z => negb (z =? 0)
  | VFloat f => negb (f =? 0)%float
  | VStr s => negb (String.eqb s "")
  | VList l => match l with [] => false | _ => true end
  | VDict d => negb (bool_decide (dom d = ∅))
  | VDatetime _ => true
  end.

(** [seq[i]] on a Python sequence of length [length l], negative indices
    counting from the end. *)
Definition seq_index {A} (l : list A) (i : Z) : result A :=
  let n := Z.of_nat (length l) in
  let j := if i <? 0 then i + n else i in
  if (j <? 0) || (n <=? j) then Raise IndexError
  else match nth_error l (Z.to_nat j) with
       | Some x => Ok x
       | None => Raise IndexError
       end.

(** [v[i]] for an integer [i] *)
Definition getitem_int (v : val) (i : Z) : result val :=
  match v with
  | VList l => seq_index l i
  | VStr s =>
      bind (seq_index (list_ascii_of_string s) i) (fun c => Ok (VStr (String c "")))
  | VDict _ => Raise KeyError
  | _ => Raise TypeError
  end.

(** [v[k]] for a string [k] *)
Definition getitem_str (v : val) (k : string) : result val :=
  match v with
  | VDict d => match d !! k with Some x => Ok x | None => Raise KeyError end
  | _ => Raise TypeError
  end.

(** [v.get(k, None)]: only a dict has the method. *)
Definition get (v : val) (k : string) : result val :=
  match v with
  | VDict d => Ok (default VNone (d !! k))
  | _ => Raise AttributeError
  end.

(** [needle in hay] on strings *)
Fixpoint contains (needle hay : string) : bool :=
  String.prefix needle hay ||
  match hay with
  | EmptyString => false
  | String _ rest => contains needle rest
  end.

(** [s.replace(a, b)] for one-character [a] and [b] *)
Fixpoint replace_char (a b : ascii) (s : string) : string :=
  match s with
  | EmptyString => EmptyString
  | String c rest =>
      String (if Ascii.eqb c a then b else c) (replace_char a b rest)
  end.

(** [v.replace("_", " ")]: only a str has the method. *)
Definition replace (v : val) : result val :=
  match v with
  | VStr s => Ok (VStr (replace_char "_" " " s))
  | _ => Raise AttributeError
  end.

(** [s.split(sep)] for a one-character separator *)
Fixpoint split_aux (sep : ascii) (cur : string) (s : string) : list string :=
  match s with
  | EmptyString => [cur]
  | String c rest =>
      if Ascii.eqb c sep then cur :: split_aux sep "" rest
      else split_aux sep (String.append cur (String c "")) rest
  end.

Definition split (sep : ascii) (s : string) : list string := split_aux sep "" s.

(** [int(s)] for a string of decimal digits with an optional sign; every other
    string raises [ValueError] here.  The spellings Python accepts beyond that
    (surrounding blanks, digit separators) do not occur in a key of
    [SENSOR_TYPES], to which the configuration schema restricts [_type]. *)
Definition digit (c : ascii) : option Z :=
  let n := Z.of_nat (nat_of_ascii c) in
  if (48 <=? n) && (n <=? 57) then Some (n - 48) else None.

Fixpoint digits (acc : Z) (s : string) : option Z :=
  match s with
  | EmptyString => Some acc
  | String c rest =>
      match digit c with
      | Some d => digits (10 * acc + d) rest
      | None => None
      end
  end.

Definition int_of_str (s : string) : result Z :=
  let unsigned (t : string) :=
    match t with
    | EmptyString => None
    | _ => digits 0 t
    end in
  let r :=
    match s with
    | String "-" t => option_map Z.opp (unsigned t)
    | String "+" t => unsigned t
    | _ => unsigned s
    end in
  match r with Some z => Ok z | None => Raise ValueError end.

(** [str == v] *)
Definition str_eq (s : string) (v : val) : bool :=
  match v with VStr t => String.eqb s t | _ => false end.

(** *** binary64 arithmetic *)

(** The binary64 number nearest to [(-1)^s * num / den], ties to even:
    the quotient is taken with at least 55 significant bits and the remainder
    gives the position of the exact value between two candidates. *)
Definition float_of_ratio (s : bool) (num den : positive) : float :=
  let k := Z.max 0 (55 + Z.pos (digits2_pos den) - Z.pos (digits2_pos num)) in
  let n := Z.shiftl (Z.pos num) k in
  let q := n / Z.pos den in
  let r := n mod Z.pos den in
  let loc :=
    if r =? 0 then loc_Exact else loc_Inexact (Z.compare (2 * r) (Z.pos den)) in
  SF2Prim (binary_round_aux prec emax s q (- k) loc).

(** [a / b] on ints ([b] not 0): the exact quotient rounded once;
    [OverflowError] when it is too large for a float. *)
Definition int_truediv (a : Z) (b : positive) : result float :=
  match a with
  | Z0 => Ok 0%float
  | Zpos p =>
      let f := float_of_ratio false p b in
      if is_infinity f then Raise OverflowError else Ok f
  | Zneg p =>
      let f := float_of_ratio true p b in
      if is_infinity f then Raise OverflowError else Ok f
  end.

(** [v / 1000] *)
Definition truediv_1000 (v : val) : result val :=
  match v with
  | VInt z => bind (int_truediv z 1000) (fun f => Ok (VFloat f))
  | VBool b => bind (int_truediv (if b then 1 else 0) 1000) (fun f => Ok (VFloat f))
  | VFloat f => Ok (VFloat (f / 1000)%float)
  | _ => Raise TypeError
  end.

Fixpoint repeat_string (n : nat) (s : string) : string :=
  match n with
  | O => ""
  | S n' => String.append s (repeat_string n' s)
  end.

(** [v * 100] (also what [v *= 100] binds to the target) *)
Definition mul_100 (v : val) : result val :=
  match v with
  | VInt z => Ok (VInt (z * 100))
  | VBool b => Ok (VInt ((if b then 1 else 0) * 100))
  | VFloat f => Ok (VFloat (f * 100)%float)
  | VStr s => Ok (VStr (repeat_string 100 s))
  | VList l => Ok (VList (concat (repeat l 100)))
  | _ => Raise TypeError
  end.

(** The integer nearest to [p / q], ties to even. *)
Definition round_half_even (p : Z) (q : positive) : Z :=
  let d := p / Z.pos q in
  let r := p mod Z.pos q in
  match Z.compare (2 * r) (Z.pos q) with
  | Lt => d
  | Gt => d + 1
  | Eq => if Z.even d then d else d + 1
  end.

(** [round(x, ndigits)] for a float [x] and [ndigits >= 0] (float.__round__):
    non-finite values and zeros round to themselves, more than 323 digits
    leave [x] as it is, and otherwise the exact value of [x] is rounded to
    [ndigits] decimal places, ties to even, and the decimal result converted
    back to the nearest binary64 number. *)
Definition NDIGITS_MAX : Z := 323.

Definition round (x : float) (ndigits : N) : float :=
  match Prim2SF x with
  | S754_finite s m e =>
      if NDIGITS_MAX <? Z.of_N ndigits then x
      else
        let scale := Z.to_pos (10 ^ Z.of_N ndigits) in
        let n :=
          match e with
          | Zneg p => round_half_even (Z.pos m * Z.pos scale) (Pos.shiftl 1 (Npos p))
          | _ => Z.pos m * 2 ^ e * Z.pos scale
          end in
        match n with
        | Zpos p => float_of_ratio s p scale
        | _ => if s then (-0)%float else 0%float
        end
  | _ => x
  end.

End Py.

Import Py.

(** ** Module-level tables and constants *)

(** [homeassistant.const.TEMP_CELSIUS], imported by the module *)
Definition TEMP_CELSIUS : string := "°C".

(** [SENSOR_TYPES]: metric identifier, then display label, unit and icon. *)
Definition SENSOR_TYPES : list (string * (string * string * string)) :=
  [ ("status", ("Printer status", "", "mdi:printer-3d"));
    ("state", ("Print job state", "", "mdi:printer-3d-nozzle"));
    ("progress", ("Print job progress", "%", "mdi:progress-clock"));
    ("bed_temperature", ("Bed temperature", TEMP_CELSIUS, "mdi:thermometer"));
    ("bed_temperature_target", ("Bed temperature target", TEMP_CELSIUS, "mdi:thermometer"));
    ("bed_type", ("Bed type", "", "mdi:layers"));
    ("hotend_1_temperature", ("Hotend 1 temperature", TEMP_CELSIUS, "mdi:thermometer"));
    ("hotend_1_temperature_target", ("Hotend 1 temperature target", TEMP_CELSIUS, "mdi:thermometer"));
    ("hotend_1_id", ("Hotend 1 id", "", "mdi:printer-3d-nozzle-outline"));
    ("hotend_2_temperature", ("Hotend 2 temperature", TEMP_CELSIUS, "mdi:thermometer"));
    ("hotend_2_temperature_target", ("Hotend 2 temperature target", TEMP_CELSIUS, "mdi:thermometer"));
    ("hotend_2_id", ("Hotend 2 id", "", "mdi:printer-3d-nozzle-outline"));
    ("active_material_1_guid", ("Filament 1 type", "", "mdi:tape-drive"));
    ("active_material_2_guid", ("Filament 2 type", "", "mdi:tape-drive"));
    ("active_material_1_length_remaining", ("Filament 1 length remaining", "m", "mdi:tape-drive"));
    ("active_material_2_length_remaining", ("Filament 2 length remaining", "m", "mdi:tape-drive")) ].

(** The metric identifiers a sensor can be created with: the schema admits
    only keys of [SENSOR_TYPES]. *)
Definition sensor_keys : list string := map fst SENSOR_TYPES.

Definition is_sensor_key (ty : string) : bool :=
  existsb (String.eqb ty) sensor_keys.

(** [vol.Optional(CONF_DECIMAL, default=2)] *)
Definition CONF_DECIMAL_default : N := 2.

(** An entry of [MATERIAL_LIST]; every entry carries the same six keys. *)
Record Material := mk_material {
  guid : string;
  brand : string;
  material : string;
  color : string;
  version : Z;
  density : val
}.

Definition MATERIAL_LIST : list Material := [
  mk_material "7cbdb9ca-081a-456f-a6ba-f73e4e9cb856" "Ultimaker" "ABS" "Pearl Gold" 28 (VFloat 1.1);
  mk_material "60636bb4-518f-42e7-8237-fe77b194ebe0" "Generic" "ABS" "Generic" 25 (VFloat 1.1);
  mk_material "7e6207c4-22ff-441a-b261-ff89f166d6a0" "Generic" "Breakaway" "Generic" 25 (VFloat 1.22);
  mk_material "12f41353-1a33-415e-8b4f-a775a6c70cc6" "Generic" "CPE" "Generic" 28 (VFloat 1.27);
  mk_material "e2409626-b5a0-4025-b73e-b58070219259" "Generic" "CPE+" "Generic" 27 (VFloat 1.18);
  mk_material "28fb4162-db74-49e1-9008-d05f1e8bef5c" "Generic" "Nylon" "Generic" 24 (VFloat 1.14);
  mk_material "98c05714-bf4e-4455-ba27-57d74fe331e4" "Generic" "PC" "Generic" 26 (VFloat 1.19);
  mk_material "1cbfaeb3-1906-4b26-b2e7-6f777a8c197a" "Generic" "PETG" "Generic" 13 (VFloat 1.27);
  mk_material "506c9f0d-e3aa-4bd4-b2d2-23e2425b1aa9" "Generic" "PLA" "Generic" 25 (VFloat 1.24);
  mk_material "aa22e9c7-421f-4745-afc2-81851694394a" "Generic" "PP" "Generic" 27 (VFloat 0.89);
  mk_material "86a89ceb-4159-47f6-ab97-e9953803d70f" "Generic" "PVA" "Generic" 26 (VFloat 1.23);
  mk_material "9d5d2d7c-4e77-441c-85a0-e9eefd4aa68c" "Generic" "Tough PLA" "Generic" 19 (VFloat 1.24);
  mk_material "1d52b2be-a3a2-41de-a8b1-3bcdb5618695" "Generic" "TPU 95A" "Generic" 27 (VFloat 1.22);
  mk_material "2f9d2279-9b0e-4765-bf9b-d1e1e13f3c49" "Ultimaker" "ABS" "Black" 28 (VFloat 1.1);
  mk_material "7c9575a6-c8d6-40ec-b3dd-18d7956bfaae" "Ultimaker" "ABS" "Blue" 28 (VFloat 1.1);
  mk_material "3400c0d1-a4e3-47de-a444-7b704f287171" "Ultimaker" "ABS" "Green" 28 (VFloat 1.1);
  mk_material "8b75b775-d3f2-4d0f-8fb2-2a3dd53cf673" "Ultimaker" "ABS" "Grey" 28 (VFloat 1.1);
  mk_material "0b4ca6ef-eac8-4b23-b3ca-5f21af00e54f" "Ultimaker" "ABS" "Orange" 28 (VFloat 1.1);
  mk_material "763c926e-a5f7-4ba0-927d-b4e038ea2735" "Ultimaker" "ABS" "Silver Metallic" 28 (VFloat 1.1);
  mk_material "5df7afa6-48bd-4c19-b314-839fe9f08f1f" "Ultimaker" "ABS" "Red" 28 (VFloat 1.1);
  mk_material "173a7bae-5e14-470e-817e-08609c61e12b" "Ultimaker" "CPE" "Light Grey" 31 (VFloat 1.27);
  mk_material "5253a75a-27dc-4043-910f-753ae11bc417" "Ultimaker" "ABS" "White" 28 (VFloat 1.1);
  mk_material "e873341d-d9b8-45f9-9a6f-5609e1bcff68" "Ultimaker" "ABS" "Yellow" 28 (VFloat 1.1);
  mk_material "7e6207c4-22ff-441a-b261-ff89f166d5f9" "Ultimaker" "Breakaway" "White" 29 (VFloat 1.22);
  mk_material "a8955dc3-9d7e-404d-8c03-0fd6fee7f22d" "Ultimaker" "CPE" "Black" 31 (VFloat 1.27);
  mk_material "4d816290-ce2e-40e0-8dc8-3f702243131e" "Ultimaker" "CPE" "Blue" 31 (VFloat 1.27);
  mk_material "10961c00-3caf-48e9-a598-fa805ada1e8d" "Ultimaker" "CPE" "Dark Grey" 31 (VFloat 1.27);
  mk_material "7ff6d2c8-d626-48cd-8012-7725fa537cc9" "Ultimaker" "CPE" "Green" 31 (VFloat 1.27);
  mk_material "1f3c3be1-2e60-4343-b35d-cb383958d992" "Ultimaker" "PETG" "Green Translucent" 30 (VFloat 1.27);
  mk_material "1aca047a-42df-497c-abfb-0e9cb85ead52" "Ultimaker" "CPE+" "Black" 29 (VFloat 1.18);
  mk_material "a9c340fe-255f-4914-87f5-ec4fcb0c11ef" "Ultimaker" "CPE+" "Transparent" 29 (VFloat 1.18);
  mk_material "6df69b13-2d96-4a69-a297-aedba667e710" "Ultimaker" "CPE+" "White" 29 (VFloat 1.18);
  mk_material "00181d6c-7024-479a-8eb7-8a2e38a2619a" "Ultimaker" "CPE" "Red" 31 (VFloat 1.27);
  mk_material "bd0d9eb3-a920-4632-84e8-dcd6086746c5" "Ultimaker" "CPE" "Transparent" 31 (VFloat 1.27);
  mk_material "881c888e-24fb-4a64-a4ac-d5c95b096cd7" "Ultimaker" "CPE" "White" 31 (VFloat 1.27);
  mk_material "b9176a2a-7a0f-4821-9f29-76d882a88682" "Ultimaker" "CPE" "Yellow" 31 (VFloat 1.27);
  mk_material "c64c2dbe-5691-4363-a7d9-66b2dc12837f" "Ultimaker" "Nylon" "Black" 27 (VFloat 1.14);
  mk_material "e256615d-a04e-4f53-b311-114b90560af9" "Ultimaker" "Nylon" "Transparent" 27 (VFloat 1.14);
  mk_material "e92b1f0b-a069-4969-86b4-30127cfb6f7b" "Ultimaker" "PC" "Black" 29 (VFloat 1.19);
  mk_material "8a38a3e9-ecf7-4a7d-a6a9-e7ac35102968" "Ultimaker" "PC" "Transparent" 29 (VFloat 1.19);
  mk_material "5e786b05-a620-4a87-92d0-f02becc1ff98" "Ultimaker" "PC" "White" 29 (VFloat 1.19);
  mk_material "3ee70a86-77d8-4b87-8005-e4a1bc57d2ce" "Ultimaker" "PLA" "Black" 26 (VFloat 1.24);
  mk_material "44a029e6-e31b-4c9e-a12f-9282e29a92ff" "Ultimaker" "PLA" "Blue" 26 (VFloat 1.24);
  mk_material "2433b8fb-dcd6-4e36-9cd5-9f4ee551c04c" "Ultimaker" "PLA" "Green" 26 (VFloat 1.24);
  mk_material "fe3982c8-58f4-4d86-9ac0-9ff7a3ab9cbc" "Ultimaker" "PLA" "Magenta" 26 (VFloat 1.24);
  mk_material "d9549dba-b9df-45b9-80a5-f7140a9a2f34" "Ultimaker" "PLA" "Orange" 26 (VFloat 1.24);
  mk_material "d9fc79db-82c3-41b5-8c99-33b3747b8fb3" "Ultimaker" "PLA" "Pearl-White" 26 (VFloat 1.24);
  mk_material "9cfe5bf1-bdc5-4beb-871a-52c70777842d" "Ultimaker" "PLA" "Red" 26 (VFloat 1.24);
  mk_material "e509f649-9fe6-4b14-ac45-d441438cb4ef" "Ultimaker" "PLA" "White" 26 (VFloat 1.24);
  mk_material "0e01be8c-e425-4fb1-b4a3-b79f255f1db9" "Ultimaker" "PLA" "Silver Metallic" 26 (VFloat 1.24);
  mk_material "532e8b3d-5fd4-4149-b936-53ada9bd6b85" "Ultimaker" "PLA" "Transparent" 26 (VFloat 1.24);
  mk_material "fe15ed8a-33c3-4f57-a2a7-b4b78a38c3cb" "Ultimaker" "PVA" "Natural" 30 (VFloat 1.23);
  mk_material "03f24266-0291-43c2-a6da-5211892a2699" "Ultimaker" "Tough PLA" "Black" 22 (VFloat 1.22);
  mk_material "07a4547f-d21f-41a0-8eee-bc92125221b3" "Ultimaker" "TPU 95A" "Red" 30 (VFloat 1.22);
  mk_material "c8e4a85e-b256-4468-8516-0aa98c69c7d7" "Ultimaker" "PETG" "Green" 30 (VFloat 1.27);
  mk_material "c8394116-30ba-4112-b4d9-8b2394278cb3" "Ultimaker" "PETG" "Grey" 30 (VFloat 1.27);
  mk_material "a02a3978-eb33-47ca-b32b-d08b92b58638" "Ultimaker" "PETG" "Orange" 30 (VFloat 1.27);
  mk_material "9680dff6-7aa5-400b-982c-40a0de06a718" "Ultimaker" "PETG" "Red" 30 (VFloat 1.27);
  mk_material "40a273c6-0e15-4db5-a278-8eb0b4a9e293" "Ultimaker" "PETG" "Silver" 30 (VFloat 1.27);
  mk_material "61eb5c6c-0110-49de-9756-13b8c7cc2ff1" "Ultimaker" "PETG" "White" 30 (VFloat 1.27);
  mk_material "d67a3ccb-6b51-4013-bdac-4c59e952aaf4" "Ultimaker" "PETG" "Yellow Fluorescent" 30 (VFloat 1.27);
  mk_material "9c1959d0-f597-46ec-9131-34020c7a54fc" "Ultimaker" "PLA" "Yellow" 26 (VFloat 1.24);
  mk_material "c7005925-2a41-4280-8cdd-4029e3fe5253" "Ultimaker" "PP" "Transparent" 30 (VFloat 0.89);
  mk_material "6d71f4ad-29ab-4b50-8f65-22d99af294dd" "Ultimaker" "Tough PLA" "Green" 22 (VFloat 1.22);
  mk_material "2db25566-9a91-4145-84a5-46c90ed22bdf" "Ultimaker" "Tough PLA" "Red" 22 (VFloat 1.24);
  mk_material "851427a0-0c9a-4d7c-a9a8-5cc92f84af1f" "Ultimaker" "Tough PLA" "White" 22 (VFloat 1.24);
  mk_material "eff40bcf-588d-420d-a3bc-a5ffd8c7f4b3" "Ultimaker" "TPU 95A" "Black" 30 (VFloat 1.22);
  mk_material "5f4a826c-7bfe-460f-8650-a9178b180d34" "Ultimaker" "TPU 95A" "Blue" 30 (VFloat 1.22);
  mk_material "6a2573e6-c8ee-4c66-8029-3ebb3d5adc5b" "Ultimaker" "TPU 95A" "White" 30 (VFloat 1.22);
  mk_material "5f9f3de0-045b-48d9-84ec-19db92be7603" "Ultimaker" "PETG" "Black" 30 (VFloat 1.27);
  mk_material "2257ab94-fb27-42e6-865c-05aa6717504b" "Ultimaker" "PETG" "Blue" 30 (VFloat 1.27);
  mk_material "e0af2080-29fc-4b18-a5c0-42ca112f507f" "Ultimaker" "PETG" "Blue Translucent" 30 (VFloat 1.27);
  mk_material "218379df-4a67-4668-b5f8-2a14c92bce96" "Ultimaker" "PETG" "Yellow" 30 (VFloat 1.27);
  mk_material "c8639119-5cae-4f56-9bcf-3bb00e8225fd" "Ultimaker" "PETG" "Red Translucent" 30 (VFloat 1.27);
  mk_material "7418eca4-e2c4-45b1-a022-37180861fd39" "Ultimaker" "PETG" "Transparent" 30 (VFloat 1.27);
  mk_material "55317359-2538-4b89-855d-e74d3c3d5916" "DSM" "Novamid ID 1030 CF" "Generic" 1 (VInt 1);
  mk_material "efbc209c-14ec-4671-acca-93eef5a207f8" "Owens Corning" "XSTRAND GF30-PA6" "Generic" 2 (VFloat 1.17);
  mk_material "6660eb2e-aa40-49ad-ac9b-ada979f3de9b" "Ultimaker" "Tough PLA" "Gray" 12 (VFloat 1.24);
  mk_material "4b049931-6ee9-408c-8588-ddd4673467d1" "Ultimaker" "Tough PLA" "Blue" 12 (VFloat 1.24);
  mk_material "bfdb0787-032d-4cf5-9975-964132bd641c" "Ultimaker" "Tough PLA" "Yellow" 12 (VFloat 1.24) ].

(** [timedelta(seconds=10)], in microseconds *)
Definition MIN_TIME_BETWEEN_UPDATES : Z := 10 * 1000000.

(** [BASE_URL.format(host)] *)
Definition BASE_URL (host : string) : string :=
  String.append "http://" (String.append host "/api/v1").

(** ** The network as one refresh cycle sees it *)

(** [response.json()] either yields the parsed body or raises.  The printer's
    API answers with a JSON object on each of the three endpoints; a body that
    parses to something else is outside this model. *)
Record Response := { json : result (gmap string val) }.

(** [self._session.get(url)] under [async_timeout.timeout(5)]: a response, or
    the exception that leaves the [with] block. *)
Definition network := string -> result Response.

(** ** UltimakerStatusData: the polling data source *)

Module UltimakerStatusData.

(** [_last_attempt] is the time stamp the throttle keeps for this object. *)
Record t := {
  _host : option string;
  _data : option (gmap string val);
  _last_attempt : option Z
}.

Definition __init__ (host : option string) : t :=
  {| _host := host; _data := None; _last_attempt := None |}.

(** The three URLs are bound once in [__init__] from [host] and never
    reassigned. *)
Definition _url_printer (host : string) : string :=
  String.append (BASE_URL host) "/printer".
Definition _url_print_job (host : string) : string :=
  String.append (BASE_URL host) "/print_job".
Definition _url_system (host : string) : string :=
  String.append (BASE_URL host) "/system".

(** [if self._host:] *)
Definition host_set (self : t) : option string :=
  match _host self with
  | Some h => if String.eqb h "" then None else Some h
  | None => None
  end.

(** The second [try] of [fetch_data].  [response] is the local variable the
    first [try] binds; it is unbound when the time-out handler fell through,
    and reading it then raises inside the [try], where [except Exception]
    turns the failure into an empty payload. *)
Definition parse_body (response : option Response) : result (gmap string val) :=
  let ret :=
    match response with
    | Some r => json r
    | None => Raise UnboundLocalError
    end in
  match ret with
  | Ok payload => Ok payload
  | Raise _ => Ok ∅
  end.

Definition fetch_data (session : network) (url : string)
  : result (gmap string val) :=
  match session url with
  | Ok response => parse_body (Some response)
  | Raise err =>
      if is_ClientError err then Raise err
      else if is_TimeoutError err then parse_body None
      else Ok ∅
  end.

(** What a call leaves behind: the object, the URLs requested in order, and
    the exception that reaches the caller, if any. *)
Record outcome := {
  self' : t;
  requests : list string;
  raised : option exn
}.

Definition set_data (d : gmap string val) (self : t) : t :=
  {| _host := _host self; _data := Some d; _last_attempt := _last_attempt self |}.

(** [self._data = d] followed, after the [try] statement, by
    [self._data["sampleTime"] = datetime.now()] *)
Definition publish (now : Z) (reqs : list string) (d : gmap string val)
    (self : t) : outcome :=
  {| self' := set_data (<["sampleTime" := VDatetime now]> d) self;
     requests := reqs; raised := None |}.

(** [except aiohttp.ClientError:] around the three fetches and the merge; any
    other exception leaves [async_update] before the snapshot is stamped. *)
Definition on_error (now : Z) (reqs : list string) (err : exn) (self : t) : outcome :=
  if is_ClientError err then
    publish now reqs {["status" := VStr "not connected"]} self
  else {| self' := self; requests := reqs; raised := Some err |}.

(** The body of [async_update], without its decorator.  [now] is what
    [datetime.now()] returns when the snapshot is stamped. *)
Definition refresh (session : network) (now : Z) (self : t) : outcome :=
  match host_set self with
  | None => {| self' := self; requests := []; raised := None |}
  | Some host =>
      let u1 := _url_printer host in
      let u2 := _url_print_job host in
      let u3 := _url_system host in
      match fetch_data session u1 with
      | Raise err => on_error now [u1] err self
      | Ok printer_data =>
          match fetch_data session u2 with
          | Raise err => on_error now [u1; u2] err self
          | Ok print_job_data =>
              match fetch_data session u3 with
              | Raise err => on_error now [u1; u2; u3] err self
              | Ok system_data =>
                  let d := printer_data in
                  let d := print_job_data ∪ d in
                  let d := system_data ∪ d in
                  publish now [u1; u2; u3] d self
              end
          end
      end
  end.

(** Modelled from the spec: the [Throttle] decorator comes from the host
    framework and is not part of sensor.py.  The spec describes it as a limiter
    that stores the time of the last refresh attempt and the minimum interval,
    checked at the top of the refresh: when less than the minimum interval has
    elapsed since the last attempt the call returns at once without a
    request; otherwise the attempt is recorded and the body runs. *)
Definition throttled (last : option Z) (clock : Z) : bool :=
  match last with
  | Some t0 => clock - t0 <? MIN_TIME_BETWEEN_UPDATES
  | None => false
  end.

(** [async_update] as decorated: [clock] is the time of the call, [now] the
    time at which a snapshot is stamped. *)
Definition async_update (session : network) (clock now : Z) (self : t) : outcome :=
  if throttled (_last_attempt self) clock then
    {| self' := self; requests := []; raised := None |}
  else
    refresh session now
      {| _host := _host self; _data := _data self; _last_attempt := Some clock |}.

Definition latest_data (self : t) : option (gmap string val) := _data self.

End UltimakerStatusData.

(** ** UltimakerStatusSensor: one metric holder *)

Module UltimakerStatusSensor.

(** The data source ([self._data]) is one object shared by all sensors; it is
    passed alongside the sensor rather than stored in it. *)
Record t := {
  _name : string;
  _type : string;
  _unit : string;
  _icon : string;
  _decimal : N;
  _state : val;
  _last_updated : val
}.

Definition __init__ (name sensor_type unit icon : string) (decimal : N) : t :=
  {| _name := name; _type := sensor_type; _unit := unit; _icon := icon;
     _decimal := decimal; _state := VNone; _last_updated := VNone |}.

Definition set_state (v : val) (self : t) : t :=
  {| _name := _name self; _type := _type self; _unit := _unit self;
     _icon := _icon self; _decimal := _decimal self;
     _state := v; _last_updated := _last_updated self |}.

Definition set_last_updated (v : val) (self : t) : t :=
  {| _name := _name self; _type := _type self; _unit := _unit self;
     _icon := _icon self; _decimal := _decimal self;
     _state := _state self; _last_updated := v |}.

(** The [state] property *)
Definition state (self : t) : val :=
  match _state self with
  | VFloat f => VFloat (Py.round f (_decimal self))
  | v => v
  end.

(** The [device_state_attributes] property *)
Definition device_state_attributes (self : t) : gmap string val :=
  match _last_updated self with
  | VNone => ∅
  | v => {["Last Updated" := v]}
  end.

(** [next(d for d in MATERIAL_LIST if d["guid"] == guid)] *)
Definition next_material (g : val) : result Material :=
  match find (fun d => str_eq (guid d) g) MATERIAL_LIST with
  | Some d => Ok d
  | None => Raise StopIteration
  end.

Definition __translate (g : val) : result val :=
  bind (next_material g) (fun d1 =>
  bind (next_material g) (fun d2 =>
  Ok (VStr (String.append (material d1) (String.append " - " (color d2)))))).

(** Statements of the update hook act on the sensor and may raise; what was
    assigned before an exception stays assigned. *)
Definition M (A : Type) : Type := t -> t * result A.

Definition ret {A} (a : A) : M A := fun self => (self, Ok a).

Definition mbind {A B} (m : M A) (k : A -> M B) : M B :=
  fun self =>
    match m self with
    | (self1, Ok a) => k a self1
    | (self1, Raise e) => (self1, Raise e)
    end.

Definition lift {A} (r : result A) : M A := fun self => (self, r).

Definition assign (v : val) : M unit := fun self => (set_state v self, Ok tt).

Definition when (b : bool) (m : M unit) : M unit := if b then m else ret tt.

Notation "x <- m ;; k" := (mbind m (fun x => k))
  (at level 100, m at next level, right associativity).
Notation "m ;;; k" := (mbind m (fun _ => k))
  (at level 100, right associativity).

(** [elif "bed" in self._type:] *)
Definition bed_branch (data : gmap string val) (ty : string) : M unit :=
  let bed := default VNone (data !! "bed") in
  when (contains "temperature" ty && truthy bed)
    (temperature <- lift (Py.get bed "temperature") ;;
     when (truthy temperature)
       (if contains "target" ty
        then v <- lift (Py.get temperature "target") ;; assign v
        else v <- lift (Py.get temperature "current") ;; assign v)) ;;;
  when (contains "type" ty && truthy bed)
    (v <- lift (Py.get bed "type") ;; assign v).

(** [head = data.get("heads", [None])[0]] *)
Definition first_head (data : gmap string val) : result val :=
  getitem_int (default (VList [VNone]) (data !! "heads")) 0.

(** [head["extruders"][int(self._type.split("_")[n]) - 1]] with [idx]
    computed first *)
Definition extruder_of (head : val) (ty : string) (n : Z) : result val :=
  bind (seq_index (split "_" ty) n) (fun part =>
  bind (int_of_str part) (fun i =>
  let idx := i - 1 in
  bind (getitem_str head "extruders") (fun extruders =>
  getitem_int extruders idx))).

(** [elif "hotend" in self._type:] *)
Definition hotend_branch (data : gmap string val) (ty : string) : M unit :=
  head <- lift (first_head data) ;;
  when (truthy head)
    (extruder <- lift (extruder_of head ty 1) ;;
     hot_end <- lift (getitem_str extruder "hotend") ;;
     when (contains "temperature" ty && truthy hot_end)
       (temperature <- lift (getitem_str hot_end "temperature") ;;
        if contains "target" ty
        then v <- lift (Py.get temperature "target") ;; assign v
        else v <- lift (Py.get temperature "current") ;; assign v) ;;;
     when (contains "id" ty && truthy hot_end)
       (v <- lift (getitem_str hot_end "id") ;; assign v)).

(** [elif "active_material" in self._type:] *)
Definition active_material_branch (data : gmap string val) (ty : string) : M unit :=
  head <- lift (first_head data) ;;
  when (truthy head)
    (extruder <- lift (extruder_of head ty 2) ;;
     active_material <- lift (getitem_str extruder "active_material") ;;
     when (contains "guid" ty && truthy active_material)
       (g <- lift (getitem_str active_material "guid") ;;
        v <- lift (__translate g) ;; assign v) ;;;
     when (contains "length_remaining" ty && truthy active_material)
       (l <- lift (getitem_str active_material "length_remaining") ;;
        v <- lift (truediv_1000 l) ;; assign v)).

(** [elif self._type == "state":] *)
Definition state_branch (data : gmap string val) : M unit :=
  let v := default VNone (data !! "state") in
  assign v ;;;
  when (truthy v) (v' <- lift (Py.replace v) ;; assign v').

(** [elif self._type == "progress":].  [self._state *= 100] on a list extends
    the list object in place, and that object is the one the snapshot holds
    under [progress]: the snapshot is returned with it. *)
Definition progress_branch (data : gmap string val) (self : t)
  : gmap string val * (t * result unit) :=
  let v := default (VInt 0) (data !! "progress") in
  let self1 := set_state v self in
  if truthy v then
    match mul_100 v with
    | Ok v' =>
        (match v with VList _ => <["progress" := v']> data | _ => data end,
         (set_state v' self1, Ok tt))
    | Raise e => (data, (self1, Raise e))
    end
  else (data, (self1, Ok tt)).

(** The body of [if data:] in [async_update], on the snapshot [data]. *)
Definition extract (data : gmap string val) (self : t)
  : gmap string val * (t * result unit) :=
  let self := set_last_updated (default VNone (data !! "sampleTime")) self in
  let ty := _type self in
  if String.eqb ty "status" then
    (data, assign (default (VStr "not connected") (data !! "status")) self)
  else if String.eqb ty "state" then (data, state_branch data self)
  else if String.eqb ty "progress" then progress_branch data self
  else if contains "bed" ty then (data, bed_branch data ty self)
  else if contains "hotend" ty then (data, hotend_branch data ty self)
  else if contains "active_material" ty then (data, active_material_branch data ty self)
  else (data, (self, Ok tt)).

(** [if data:] on what [latest_data] returned *)
Definition data_truthy (data : option (gmap string val)) : bool :=
  match data with
  | Some d => truthy (VDict d)
  | None => false
  end.

(** An exception leaving a coroutine: a [StopIteration] that escapes the body
    reaches the awaiting caller as a [RuntimeError]. *)
Definition leave_coroutine (r : result unit) : option exn :=
  match r with
  | Ok _ => None
  | Raise StopIteration => Some RuntimeError
  | Raise e => Some e
  end.

(** What the hook leaves behind: the shared data source, the sensor, the URLs
    requested and the exception that reaches the host, if any. *)
Record outcome := {
  source' : UltimakerStatusData.t;
  sensor' : t;
  requests : list string;
  raised : option exn
}.

(** The update hook.  [clock] and [now] are as for the data source. *)
Definition async_update (session : network) (clock now : Z)
    (source : UltimakerStatusData.t) (self : t) : outcome :=
  let o := UltimakerStatusData.async_update session clock now source in
  let source1 := UltimakerStatusData.self' o in
  let reqs := UltimakerStatusData.requests o in
  match UltimakerStatusData.raised o with
  | Some e =>
      {| source' := source1; sensor' := self; requests := reqs; raised := Some e |}
  | None =>
      let data := UltimakerStatusData.latest_data source1 in
      match data with
      | Some d =>
          if data_truthy data then
            let '(d', (self1, r)) := extract d self in
            {| source' := UltimakerStatusData.set_data d' source1;
               sensor' := self1; requests := reqs; raised := leave_coroutine r |}
          else
            {| source' := source1; sensor' := self; requests := reqs; raised := None |}
      | None =>
          {| source' := source1; sensor' := self; requests := reqs; raised := None |}
      end
  end.

End UltimakerStatusSensor.

(** ** async_setup_platform *)









(** ** Definitions used in the statements *)

(** The three endpoints of one refresh cycle, in the order they are fetched. *)
Inductive endpoint := Printer | PrintJob | System.

Definition url_of (host : string) (ep : endpoint) : string :=
  match ep with
  | Printer => UltimakerStatusData._url_printer host
  | PrintJob => UltimakerStatusData._url_print_job host
  | System => UltimakerStatusData._url_system host
  end.

(** A session that answers each endpoint of [host] with the given outcome and
    refuses every other URL. *)
Definition session_of (host : string) (answer : endpoint -> result Response) : network :=
  fun url =>
    if String.eqb url (url_of host Printer) then answer Printer
    else if String.eqb url (url_of host PrintJob) then answer PrintJob
    else if String.eqb url (url_of host System) then answer System
    else Raise ClientError.

Definition body (payload : gmap string val) : result Response :=
  Ok {| json := Ok payload |}.

(** The value of key [k] after [dict.update] in the order printer, print job,
    system: the last payload that defines the key provides it. *)
Definition last_wins (printer print_job system : gmap string val) (k : string)
  : option val :=
  match system !! k with
  | Some v => Some v
  | None =>
      match print_job !! k with
      | Some v => Some v
      | None => printer !! k
      end
  end.

(** The precedence as the specification words it: print job first, then
    system, then printer. *)
Definition print_job_first (printer print_job system : gmap string val) (k : string)
  : option val :=
  match print_job !! k with
  | Some v => Some v
  | None =>
      match system !! k with
      | Some v => Some v
      | None => printer !! k
      end
  end.

(** The merge of the payloads of the two endpoints other than [ep], in fetch
    order. *)
Definition merge_others (ep : endpoint) (payload : endpoint -> gmap string val)
  : gmap string val :=
  match ep with
  | Printer => payload System ∪ payload PrintJob
  | PrintJob => payload System ∪ payload Printer
  | System => payload PrintJob ∪ payload Printer
  end.

(** The fallback snapshot published at time [now]. *)
Definition fallback (now : Z) : gmap string val :=
  <["sampleTime" := VDatetime now]> {["status" := VStr "not connected"]}.

(** A printer at [printer.local] whose print job and system both report a
    [name]. *)
Definition sample_host : string := "printer.local".

Definition sample_payload (ep : endpoint) : gmap string val :=
  match ep with
  | Printer => {["status" := VStr "printing"]}
  | PrintJob => {["name" := VStr "benchy"; "progress" := VFloat 0.37]}
  | System => {["name" := VStr "Ultimaker-S5"]}
  end.

Definition sample_session : network :=
  session_of sample_host (fun ep => body (sample_payload ep)).

Definition sample_source : UltimakerStatusData.t :=
  UltimakerStatusData.__init__ (Some sample_host).

Definition seconds (n : Z) : Z := n * 1000000.

(** A session in which the printer endpoint reports [payload] and the two
    other endpoints an empty object. *)
Definition printer_reports (payload : gmap string val) : network :=
  session_of sample_host
    (fun ep => match ep with Printer => body payload | _ => body ∅ end).

(** A session in which the printer cannot be reached. *)
Definition offline : network := fun _ => Raise ClientError.

Definition sample_sensor (sensor_type : string) : UltimakerStatusSensor.t :=
  UltimakerStatusSensor.__init__ "Printer" sensor_type "" "" CONF_DECIMAL_default.

(** A heated bed at 60.5 degrees. *)
Definition sample_bed : val :=
  VDict {["type" := VStr "glass";
          "temperature" := VDict {["current" := VFloat 60.5; "target" := VInt 60]}]}.

(** An extruder slot with a hotend and the given material GUID loaded. *)
Definition sample_extruder (material_guid : string) : val :=
  VDict {["hotend" := VDict {["id" := VStr "AA 0.4";
                              "temperature" := VDict {["current" := VFloat 23.456;
                                                       "target" := VInt 0]}]};
          "active_material" := VDict {["guid" := VStr material_guid;
                                       "length_remaining" := VInt 4500]}]}.

Definition sample_heads (extruders : list val) : val :=
  VList [VDict {["extruders" := VList extruders]}].

(** The update hook on a fresh data source and a fresh sensor. *)
Definition first_update (session : network) (sensor_type : string)
  : UltimakerStatusSensor.outcome :=
  UltimakerStatusSensor.async_update session (seconds 0) (seconds 0)
    sample_source (sample_sensor sensor_type).

(** The three bed metrics *)
Definition bed_metrics : list string :=
  ["bed_temperature"; "bed_temperature_target"; "bed_type"].

(** The sensor once [_last_updated] has been taken from the snapshot, before
    any value is assigned. *)
Definition stamped (data : gmap string val) (self : UltimakerStatusSensor.t)
  : UltimakerStatusSensor.t :=
  UltimakerStatusSensor.set_last_updated (default VNone (data !! "sampleTime")) self.

(** The two metrics that name the loaded material *)
Definition guid_metrics : list string :=
  ["active_material_1_guid"; "active_material_2_guid"].

(** The GUID of generic PLA, and a GUID that no entry of the catalogue has. *)
Definition pla_guid : string := "506c9f0d-e3aa-4bd4-b2d2-23e2425b1aa9".
Definition unknown_guid : string := "00000000-0000-4000-8000-000000000000".

(** The sensor configured with another precision. *)
Definition with_decimal (d : N) (self : UltimakerStatusSensor.t)
  : UltimakerStatusSensor.t :=
  {| UltimakerStatusSensor._name := UltimakerStatusSensor._name self;
     UltimakerStatusSensor._type := UltimakerStatusSensor._type self;
     UltimakerStatusSensor._unit := UltimakerStatusSensor._unit self;
     UltimakerStatusSensor._icon := UltimakerStatusSensor._icon self;
     UltimakerStatusSensor._decimal := d;
     UltimakerStatusSensor._state := UltimakerStatusSensor._state self;
     UltimakerStatusSensor._last_updated := UltimakerStatusSensor._last_updated self |}.

(** A statement of the hook that neither reads nor writes the precision. *)
Definition decimal_blind {A} (m : UltimakerStatusSensor.M A) : Prop :=
  forall d self,
    m (with_decimal d self) = let '(s, r) := m self in (with_decimal d s, r).

(** A session in which the request to the print-job endpoint times out. *)
Definition print_job_times_out : network :=
  session_of sample_host
    (fun ep => match ep with
               | PrintJob => Raise TimeoutError
               | _ => body (sample_payload ep)
               end).

(** What holds of the data source whenever a sensor is updated: the platform
    set-up calls [async_update] on the new data source before it creates the
    sensors, so with a host configured a snapshot has been published. *)
Definition ready (source : UltimakerStatusData.t) : Prop :=
  UltimakerStatusData.host_set source = None \/
  is_Some (UltimakerStatusData.latest_data source).

(** The endpoints requested up to and including [ep]. *)
Definition up_to (ep : endpoint) : list endpoint :=
  match ep with
  | Printer => [Printer]
  | PrintJob => [Printer; PrintJob]
  | System => [Printer; PrintJob; System]
  end.

(** Two sensors that differ at most in their value. *)
Definition same_but_state (s self : UltimakerStatusSensor.t) : Prop :=
  UltimakerStatusSensor._name s = UltimakerStatusSensor._name self /\
  UltimakerStatusSensor._type s = UltimakerStatusSensor._type self /\
  UltimakerStatusSensor._unit s = UltimakerStatusSensor._unit self /\
  UltimakerStatusSensor._icon s = UltimakerStatusSensor._icon self /\
  UltimakerStatusSensor._decimal s = UltimakerStatusSensor._decimal self /\
  UltimakerStatusSensor._last_updated s = UltimakerStatusSensor._last_updated self.

(** A statement of the hook that writes nothing but the value. *)
Definition writes_state_only {A} (m : UltimakerStatusSensor.M A) : Prop :=
  forall self, same_but_state (fst (m self)) self.


(** The metric identifiers by family *)
Definition hotend_metrics (n : Z) : list string :=
  if n =? 1 then ["hotend_1_temperature"; "hotend_1_temperature_target"; "hotend_1_id"]
  else ["hotend_2_temperature"; "hotend_2_temperature_target"; "hotend_2_id"].

Definition active_material_metrics (n : Z) : list string :=
  if n =? 1 then ["active_material_1_guid"; "active_material_1_length_remaining"]
  else ["active_material_2_guid"; "active_material_2_length_remaining"].

(** A snapshot in which slot [n] of the first head holds [extruder]. *)
Definition slot_holds (data : gmap string val) (n : Z) (extruder : val) : Prop :=
  exists heads head extruders,
    data !! "heads" = Some (VList (VDict head :: heads)) /\
    head !! "extruders" = Some (VList extruders) /\
    nth_error extruders (Z.to_nat (n - 1)) = Some extruder.


(** The exceptions the extraction of a value can end with. *)
Definition is_extraction_error (e : exn) : bool :=
  match e with
  | IndexError | KeyError | TypeError | AttributeError | ValueError
  | OverflowError | StopIteration => true
  | _ => false
  end.

Definition fails_as_extraction {A} (r : result A) : Prop :=
  forall e, r = Raise e -> is_extraction_error e = true.

Definition raises_as_extraction {A} (m : UltimakerStatusSensor.M A) : Prop :=
  forall self, fails_as_extraction (snd (m self)).

(** The sensor with the value [ov] stored, if any. *)
Definition store (ov : option val) (self : UltimakerStatusSensor.t)
  : UltimakerStatusSensor.t :=
  match ov with
  | Some v => UltimakerStatusSensor.set_state v self
  | None => self
  end.

(** A statement of the hook whose outcome, and the value it stores if it
    stores one, do not depend on the sensor it runs on. *)
Definition stateless {A} (m : UltimakerStatusSensor.M A) : Prop :=
  exists (ov : option val) (r : result A), forall self, m self = (store ov self, r).

(** ** The Python operations on known inputs *)

Example round_to_one_decimal : Py.round 23.456 1 = 23.5%float.
Proof. vm_compute. reflexivity. Qed.

Example round_is_exact_half_even :
  Py.round 2.675 2 = 2.67%float /\ Py.round 0.5 0 = 0%float /\
  Py.round 1.5 0 = 2%float /\ Py.round 2.5 0 = 2%float /\
  Py.round (-0.001) 2 = (-0)%float.
Proof. vm_compute. repeat split. Qed.

Example truediv_of_ints :
  truediv_1000 (VInt 4500) = Ok (VFloat 4.5) /\
  truediv_1000 (VInt 1) = Ok (VFloat 0.001) /\
  truediv_1000 (VInt (2 ^ 60 + 1)) = Ok (VFloat 1152921504606847.0).
Proof. vm_compute. repeat split. Qed.

Example split_metric :
  split "_" "hotend_1_temperature" = ["hotend"; "1"; "temperature"] /\
  split "_" "bed" = ["bed"] /\ split "_" "a__b" = ["a"; ""; "b"].
Proof. vm_compute. repeat split. Qed.

Example contains_in_metric :
  contains "id" "active_material_1_guid" = true /\
  contains "type" "bed_temperature" = false /\
  forallb is_sensor_key sensor_keys = true /\ length sensor_keys = 16%nat.
Proof. vm_compute. repeat split. Qed.

Example negative_index :
  seq_index [1; 2; 3] (-1) = Ok 3 /\ seq_index [1; 2; 3] 3 = Raise IndexError /\
  seq_index [1; 2; 3] (-4) = Raise IndexError.
Proof. vm_compute. repeat split. Qed.

(** ** The data source *)

Section DataSource.
Import UltimakerStatusData.

Lemma fetch_data_raise session url e :
  fetch_data session url = Raise e ->
  session url = Raise e /\ is_ClientError e = true.
Proof.
  unfold fetch_data, parse_body.
  destruct (session url) as [r | err].
  - destruct (json r); discriminate.
  - destruct (is_ClientError err) eqn:Hc.
    + intros [= ->]. auto.
    + destruct (is_TimeoutError err); discriminate.
Qed.

Lemma fetch_data_timeout session url e :
  session url = Raise e -> is_ClientError e = false -> is_TimeoutError e = true ->
  fetch_data session url = Ok ∅.
Proof.
  intros Hs Hc Ht. unfold fetch_data. rewrite Hs, Hc, Ht. reflexivity.
Qed.

Lemma fetch_data_body session url r payload :
  session url = Ok r -> json r = Ok payload ->
  fetch_data session url = Ok payload.
Proof.
  intros Hs Hj. unfold fetch_data, parse_body. rewrite Hs, Hj. reflexivity.
Qed.

Lemma fetch_data_client_error session url e :
  session url = Raise e -> is_ClientError e = true ->
  fetch_data session url = Raise e.
Proof.
  intros Hs Hc. unfold fetch_data. rewrite Hs, Hc. reflexivity.
Qed.

Lemma async_update_unthrottled session clock now self :
  throttled (_last_attempt self) clock = false ->
  async_update session clock now self =
  refresh session now
    {| _host := _host self; _data := _data self; _last_attempt := Some clock |}.
Proof. intros H. unfold async_update. rewrite H. reflexivity. Qed.

Lemma refresh_merge session now self host p j s :
  host_set self = Some host ->
  fetch_data session (_url_printer host) = Ok p ->
  fetch_data session (_url_print_job host) = Ok j ->
  fetch_data session (_url_system host) = Ok s ->
  refresh session now self =
  publish now [_url_printer host; _url_print_job host; _url_system host]
    (s ∪ (j ∪ p)) self.
Proof.
  intros Hh Hp Hj Hs. unfold refresh. rewrite Hh, Hp, Hj, Hs. reflexivity.
Qed.

Lemma last_wins_union (p j s : gmap string val) k :
  (s ∪ (j ∪ p)) !! k = last_wins p j s k.
Proof.
  unfold last_wins. rewrite !lookup_union.
  destruct (s !! k), (j !! k), (p !! k); reflexivity.
Qed.

(** Every refresh attempt keeps the time stamp of the throttle. *)
Lemma refresh_last_attempt session now self :
  _last_attempt (self' (refresh session now self)) = _last_attempt self.
Proof.
  unfold refresh.
  destruct (host_set self) as [host|]; [|reflexivity].
  repeat match goal with
         | |- context [fetch_data ?s ?u] => destruct (fetch_data s u)
         end; try reflexivity;
    unfold on_error; destruct (is_ClientError e); reflexivity.
Qed.


(** C1, as the code has it: when the three fetches of a refresh return the
    payloads [p] (printer), [j] (print job) and [s] (system), the published
    snapshot is stamped with the current time under [sampleTime] and, for every
    other key, holds the system payload's value if system defines the key, else
    the print-job payload's value if print job defines it, else the printer
    payload's value. *)
Theorem merge_last_payload_wins session clock now self host p j s :
  host_set self = Some host ->
  throttled (_last_attempt self) clock = false ->
  fetch_data session (_url_printer host) = Ok p ->
  fetch_data session (_url_print_job host) = Ok j ->
  fetch_data session (_url_system host) = Ok s ->
  let o := async_update session clock now self in
  raised o = None /\
  exists d, latest_data (self' o) = Some d /\
    d !! "sampleTime" = Some (VDatetime now) /\
    forall k, k <> "sampleTime" -> d !! k = last_wins p j s k.
Proof.
  intros Hh Ht Hp Hj Hs o. subst o.
  rewrite async_update_unthrottled by exact Ht.
  rewrite (refresh_merge _ _ _ host p j s) by assumption.
  split; [reflexivity|].
  eexists. split; [reflexivity|]. split.
  - apply lookup_insert_eq.
  - intros k Hk. rewrite lookup_insert_ne by congruence.
    apply last_wins_union.
Qed.

Lemma merge_last_payload_wins_witness :
  let o := async_update sample_session 0 (seconds 1) sample_source in
  raised o = None /\
  exists d, latest_data (self' o) = Some d /\
    d !! "sampleTime" = Some (VDatetime (seconds 1)) /\
    forall k, k <> "sampleTime" ->
      d !! k = last_wins (sample_payload Printer) (sample_payload PrintJob)
                 (sample_payload System) k.
Proof.
  apply (merge_last_payload_wins sample_session 0 (seconds 1) sample_source
           sample_host); reflexivity.
Defined.

(** C1 as stated fails: the print job and the system payload both define
    [name]; the published snapshot holds the system payload's value, not the
    print-job payload's. *)
Lemma merge_print_job_first_fails :
  let o := async_update sample_session 0 (seconds 1) sample_source in
  fetch_data sample_session (_url_printer sample_host) = Ok (sample_payload Printer) /\
  fetch_data sample_session (_url_print_job sample_host) = Ok (sample_payload PrintJob) /\
  fetch_data sample_session (_url_system sample_host) = Ok (sample_payload System) /\
  print_job_first (sample_payload Printer) (sample_payload PrintJob)
    (sample_payload System) "name" = Some (VStr "benchy") /\
  (latest_data (self' o) ≫= (.!! "name")) = Some (VStr "Ultimaker-S5") /\
  (latest_data (self' o) ≫= (.!! "name")) <>
  print_job_first (sample_payload Printer) (sample_payload PrintJob)
    (sample_payload System) "name".
Proof.
  vm_compute. repeat split; discriminate.
Qed.

(** C2: when the request to exactly one endpoint times out and the other two
    answer with a parsable body, [fetch_data] returns the empty payload for the
    endpoint that timed out, no exception leaves the refresh, and the published
    snapshot is the merge of the two other payloads, stamped with the current
    time. *)
Theorem timeout_contributes_nothing session clock now self host ep
    (payload : endpoint -> gmap string val) :
  host_set self = Some host ->
  throttled (_last_attempt self) clock = false ->
  session (url_of host ep) = Raise TimeoutError ->
  (forall ep', ep' <> ep ->
     exists r, session (url_of host ep') = Ok r /\ json r = Ok (payload ep')) ->
  let o := async_update session clock now self in
  fetch_data session (url_of host ep) = Ok ∅ /\
  raised o = None /\
  latest_data (self' o) =
    Some (<["sampleTime" := VDatetime now]> (merge_others ep payload)).
Proof.
  intros Hh Ht Hto Hok o. subst o.
  assert (Hep : fetch_data session (url_of host ep) = Ok ∅)
    by (apply (fetch_data_timeout _ _ TimeoutError); auto).
  assert (Hother : forall ep', ep' <> ep ->
            fetch_data session (url_of host ep') = Ok (payload ep')).
  { intros ep' Hne. destruct (Hok ep' Hne) as (r & Hr & Hj).
    eapply fetch_data_body; eauto. }
  split; [exact Hep|].
  rewrite async_update_unthrottled by exact Ht.
  destruct ep; simpl in Hep.
  - rewrite (refresh_merge _ _ _ host ∅ (payload PrintJob) (payload System));
      auto; try (apply (Hother PrintJob) || apply (Hother System)); try discriminate.
    simpl. rewrite (right_id_L ∅ (∪)). auto.
  - rewrite (refresh_merge _ _ _ host (payload Printer) ∅ (payload System));
      auto; try (apply (Hother Printer) || apply (Hother System)); try discriminate.
    simpl. rewrite (left_id_L ∅ (∪)). auto.
  - rewrite (refresh_merge _ _ _ host (payload Printer) (payload PrintJob) ∅);
      auto; try (apply (Hother Printer) || apply (Hother PrintJob)); try discriminate.
    simpl. rewrite (left_id_L ∅ (∪)). auto.
Qed.

Lemma timeout_contributes_nothing_witness :
  let o := async_update print_job_times_out 0 (seconds 1) sample_source in
  fetch_data print_job_times_out (url_of sample_host PrintJob) = Ok ∅ /\
  raised o = None /\
  latest_data (self' o) =
    Some (<["sampleTime" := VDatetime (seconds 1)]>
            (merge_others PrintJob sample_payload)).
Proof.
  apply (timeout_contributes_nothing print_job_times_out 0 (seconds 1)
           sample_source sample_host PrintJob sample_payload);
    try reflexivity.
  intros ep' Hne. destruct ep'.
  - eexists. split; reflexivity.
  - contradiction.
  - eexists. split; reflexivity.
Defined.


(** C6, as the throttle works: when a call to the refresh performs the attempt
    (it is not itself throttled) and a second call follows less than the
    minimum interval of 10 seconds later, the second call issues no request,
    raises nothing and leaves the data source, and with it the snapshot and
    its time stamp, exactly as the first call left it. *)
Theorem throttle_second_call session1 session2 clock1 clock2 now1 now2 self :
  throttled (_last_attempt self) clock1 = false ->
  clock2 - clock1 < MIN_TIME_BETWEEN_UPDATES ->
  let o1 := async_update session1 clock1 now1 self in
  async_update session2 clock2 now2 (self' o1) =
  {| self' := self' o1; requests := []; raised := None |}.
Proof.
  intros Ht Hlt o1.
  assert (Hlast : _last_attempt (self' o1) = Some clock1).
  { subst o1. rewrite async_update_unthrottled by exact Ht.
    apply refresh_last_attempt. }
  unfold async_update at 1. rewrite Hlast. simpl.
  apply Z.ltb_lt in Hlt. rewrite Hlt. reflexivity.
Qed.

Lemma throttle_second_call_witness :
  let o1 := async_update sample_session 0 (seconds 1) sample_source in
  async_update print_job_times_out (seconds 9) (seconds 9) (self' o1) =
  {| self' := self' o1; requests := []; raised := None |}.
Proof.
  apply (throttle_second_call sample_session print_job_times_out
           0 (seconds 9) (seconds 1) (seconds 9) sample_source).
  - reflexivity.
  - vm_compute. reflexivity.
Defined.

(** C6 as stated fails: of three calls at 0 s, 9 s and 12 s the second is
    throttled, so the third, 3 s after the second, is 12 s after the last
    attempt: it requests all three endpoints and replaces the snapshot. *)
Lemma throttle_pair_of_calls_fails :
  let o1 := async_update sample_session (seconds 0) (seconds 0) sample_source in
  let o2 := async_update sample_session (seconds 9) (seconds 9) (self' o1) in
  let o3 := async_update sample_session (seconds 12) (seconds 12) (self' o2) in
  seconds 12 - seconds 9 < MIN_TIME_BETWEEN_UPDATES /\
  requests o2 = [] /\
  requests o3 = [url_of sample_host Printer; url_of sample_host PrintJob;
                 url_of sample_host System] /\
  (latest_data (self' o2) ≫= (.!! "sampleTime")) = Some (VDatetime (seconds 0)) /\
  (latest_data (self' o3) ≫= (.!! "sampleTime")) = Some (VDatetime (seconds 12)) /\
  latest_data (self' o3) <> latest_data (self' o2).
Proof.
  vm_compute. repeat split; discriminate.
Qed.

End DataSource.

(** ** The sensor *)

Section Sensor.
Import UltimakerStatusSensor.

(** Evaluate the tests of the [elif] chain on a known metric identifier. *)
Ltac eval_tests :=
  repeat match goal with
         | |- context [String.eqb ?a ?b] =>
             let v := eval vm_compute in (String.eqb a b) in
             change (String.eqb a b) with v
         | |- context [contains ?a ?b] =>
             let v := eval vm_compute in (contains a b) in
             change (contains a b) with v
         end;
  cbv beta iota.

Ltac run_M := unfold when, mbind, lift, assign, ret; cbv beta iota.

Lemma bed_branch_absent data ty self :
  data !! "bed" = None -> bed_branch data ty self = (self, Ok tt).
Proof.
  intros H. unfold bed_branch. rewrite H. cbn [default from_option truthy].
  rewrite !andb_false_r. reflexivity.
Qed.

Lemma bed_branch_no_temperature data ty self b :
  data !! "bed" = Some (VDict b) -> b !! "temperature" = None ->
  contains "type" ty = false ->
  bed_branch data ty self = (self, Ok tt).
Proof.
  intros Hb Ht Hty. unfold bed_branch. rewrite Hb, Hty.
  cbn [default from_option id]. run_M.
  destruct (contains "temperature" ty && truthy (VDict b)); cbv beta iota.
  - unfold Py.get. rewrite Ht. reflexivity.
  - reflexivity.
Qed.

Lemma first_head_absent data :
  data !! "heads" = None -> first_head data = Ok VNone.
Proof. intros H. unfold first_head. rewrite H. reflexivity. Qed.

Lemma hotend_branch_absent data ty self :
  data !! "heads" = None -> hotend_branch data ty self = (self, Ok tt).
Proof.
  intros H. unfold hotend_branch. rewrite (first_head_absent _ H). reflexivity.
Qed.

Lemma active_material_branch_absent data ty self :
  data !! "heads" = None -> active_material_branch data ty self = (self, Ok tt).
Proof.
  intros H. unfold active_material_branch. rewrite (first_head_absent _ H).
  reflexivity.
Qed.

Lemma extract_bed data self :
  In (_type self) bed_metrics ->
  extract data self = (data, bed_branch data (_type self) (stamped data self)).
Proof.
  intros Hin. unfold extract. cbn [_type set_last_updated].
  simpl in Hin. destruct Hin as [<- | [<- | [<- | []]]]; eval_tests; reflexivity.
Qed.

(** C7, as the code has it: when the snapshot has no [bed] key, or, for the
    two temperature metrics, the [bed] object has no [temperature] key,
    extracting [bed_temperature], [bed_temperature_target] or [bed_type]
    raises nothing and assigns nothing: the sensor keeps the value it had,
    which is null for a sensor that never held a value. *)
Theorem bed_missing_keeps_value data self :
  In (_type self) bed_metrics ->
  data !! "bed" = None \/
  (_type self <> "bed_type" /\
   exists b, data !! "bed" = Some (VDict b) /\ b !! "temperature" = None) ->
  extract data self = (data, (stamped data self, Ok tt)) /\
  _state (stamped data self) = _state self /\
  (_state self = VNone -> _state (stamped data self) = VNone).
Proof.
  intros Hin Hmiss. rewrite (extract_bed _ _ Hin).
  split; [|split; [reflexivity | auto]].
  destruct Hmiss as [Hb | (Hty & b & Hb & Ht)].
  - rewrite bed_branch_absent by exact Hb. reflexivity.
  - rewrite (bed_branch_no_temperature _ _ _ b); auto.
    simpl in Hin. destruct Hin as [H | [H | [H | []]]];
      try (rewrite <- H; reflexivity). congruence.
Qed.


Lemma bed_missing_keeps_value_witness :
  let data : gmap string val := fallback (seconds 1) in
  let self := sample_sensor "bed_temperature" in
  extract data self = (data, (stamped data self, Ok tt)) /\
  _state (stamped data self) = _state self /\
  (_state self = VNone -> _state (stamped data self) = VNone).
Proof.
  apply (bed_missing_keeps_value (fallback (seconds 1))
           (sample_sensor "bed_temperature")).
  - simpl. auto.
  - left. reflexivity.
Defined.

(** C7 as stated fails: a [bed_temperature] sensor reads 60.5 from a first
    snapshot; 20 s later the printer is unreachable and the snapshot has no
    [bed] key; the extraction raises nothing but the sensor still holds 60.5,
    not null. *)
Lemma bed_missing_not_null :
  let o1 := first_update (printer_reports {["bed" := sample_bed]}) "bed_temperature" in
  let o2 := async_update offline (seconds 20) (seconds 20) (source' o1) (sensor' o1) in
  _state (sensor' o1) = VFloat 60.5 /\
  (UltimakerStatusData.latest_data (source' o2) ≫= (.!! "bed")) = None /\
  raised o2 = None /\
  _state (sensor' o2) = VFloat 60.5 /\
  state (sensor' o2) <> VNone.
Proof.
  vm_compute. repeat split; discriminate.
Qed.

Lemma extract_fallback now self :
  exists self1,
    extract (fallback now) self = (fallback now, (self1, Ok tt)) /\
    (_type self = "status" -> state self1 = VStr "not connected").
Proof.
  assert (Hbed : fallback now !! "bed" = None) by reflexivity.
  assert (Hheads : fallback now !! "heads" = None) by reflexivity.
  unfold extract. cbn [_type set_last_updated].
  destruct (String.eqb (_type self) "status") eqn:E1.
  { eexists. split; [reflexivity|]. intros _. reflexivity. }
  assert (Hne : _type self <> "status").
  { intros H. rewrite H in E1. discriminate. }
  destruct (String.eqb (_type self) "state").
  { eexists. split; [reflexivity | tauto]. }
  destruct (String.eqb (_type self) "progress").
  { eexists. split; [reflexivity | tauto]. }
  destruct (contains "bed" (_type self)).
  { rewrite bed_branch_absent by exact Hbed. eexists. split; [reflexivity | tauto]. }
  destruct (contains "hotend" (_type self)).
  { rewrite hotend_branch_absent by exact Hheads.
    eexists. split; [reflexivity | tauto]. }
  destruct (contains "active_material" (_type self)).
  { rewrite active_material_branch_absent by exact Hheads.
    eexists. split; [reflexivity | tauto]. }
  eexists. split; [reflexivity | tauto].
Qed.

Lemma on_error_client now reqs e source :
  is_ClientError e = true ->
  UltimakerStatusData.on_error now reqs e source =
  UltimakerStatusData.publish now reqs {["status" := VStr "not connected"]} source.
Proof. intros H. unfold UltimakerStatusData.on_error. rewrite H. reflexivity. Qed.

(** C5: when, in a refresh that is carried out, the request to some endpoint
    fails at connection level, the refresh raises nothing and publishes the
    fallback snapshot with [status] "not connected", stamped with the current
    time; and over that snapshot the extraction of every metric returns
    without raising, the [status] metric reading "not connected". *)
Theorem connection_failure_publishes_fallback session clock now source host ep e :
  UltimakerStatusData.host_set source = Some host ->
  UltimakerStatusData.throttled (UltimakerStatusData._last_attempt source) clock = false ->
  session (url_of host ep) = Raise e ->
  is_ClientError e = true ->
  let o := UltimakerStatusData.async_update session clock now source in
  UltimakerStatusData.raised o = None /\
  UltimakerStatusData.latest_data (UltimakerStatusData.self' o) = Some (fallback now) /\
  forall self, exists self1,
    extract (fallback now) self = (fallback now, (self1, Ok tt)) /\
    (_type self = "status" -> state self1 = VStr "not connected").
Proof.
  intros Hh Ht Hs He o. subst o.
  assert (Hf : UltimakerStatusData.fetch_data session (url_of host ep) = Raise e)
    by (apply fetch_data_client_error; assumption).
  rewrite async_update_unthrottled by exact Ht.
  split; [|split; [|apply extract_fallback]];
    unfold UltimakerStatusData.refresh;
    change (UltimakerStatusData.host_set _) with (UltimakerStatusData.host_set source);
    rewrite Hh;
    destruct (UltimakerStatusData.fetch_data session (UltimakerStatusData._url_printer host))
      as [p | e1] eqn:F1;
    try (apply fetch_data_raise in F1 as [_ F1]; rewrite on_error_client by exact F1;
         reflexivity);
    destruct (UltimakerStatusData.fetch_data session (UltimakerStatusData._url_print_job host))
      as [j | e2] eqn:F2;
    try (apply fetch_data_raise in F2 as [_ F2]; rewrite on_error_client by exact F2;
         reflexivity);
    destruct (UltimakerStatusData.fetch_data session (UltimakerStatusData._url_system host))
      as [s | e3] eqn:F3;
    try (apply fetch_data_raise in F3 as [_ F3]; rewrite on_error_client by exact F3;
         reflexivity);
    destruct ep; simpl in Hf; congruence.
Qed.

Lemma connection_failure_publishes_fallback_witness :
  let o := UltimakerStatusData.async_update offline (seconds 0) (seconds 1) sample_source in
  UltimakerStatusData.raised o = None /\
  UltimakerStatusData.latest_data (UltimakerStatusData.self' o) = Some (fallback (seconds 1)) /\
  forall self, exists self1,
    extract (fallback (seconds 1)) self = (fallback (seconds 1), (self1, Ok tt)) /\
    (_type self = "status" -> state self1 = VStr "not connected").
Proof.
  apply (connection_failure_publishes_fallback offline (seconds 0) (seconds 1)
           sample_source sample_host System ClientError); reflexivity.
Defined.

Lemma extract_active_material data self :
  In (_type self) guid_metrics ->
  extract data self =
  (data, active_material_branch data (_type self) (stamped data self)).
Proof.
  intros Hin. unfold extract. cbn [_type set_last_updated].
  simpl in Hin. destruct Hin as [<- | [<- | []]]; eval_tests; reflexivity.
Qed.

Lemma find_none_of_all {A} (f : A -> bool) (l : list A) :
  (forall x, In x l -> f x = false) -> find f l = None.
Proof.
  induction l as [|a l IH]; intros H; [reflexivity|].
  simpl. rewrite (H a) by (left; reflexivity).
  apply IH. intros x Hx. apply H. right. exact Hx.
Qed.

(** C3: the hotend and active-material paths subscript without a guard.  On a
    first update of a fresh sensor, an empty [heads] list raises [IndexError];
    a printer with a single extruder slot raises [IndexError] for the metrics
    of slot 2; an extruder object without [hotend] or without
    [active_material] raises [KeyError].  Each exception reaches the host. *)
Theorem hotend_subscripts_unguarded :
  let empty_heads := printer_reports {["heads" := VList []]} in
  let one_slot := printer_reports {["heads" := sample_heads [sample_extruder pla_guid]]} in
  let bare_slot := printer_reports {["heads" := sample_heads [VDict {["id" := VInt 0]}]]} in
  raised (first_update empty_heads "hotend_1_temperature") = Some IndexError /\
  raised (first_update empty_heads "active_material_1_guid") = Some IndexError /\
  raised (first_update one_slot "hotend_1_id") = None /\
  raised (first_update one_slot "hotend_2_id") = Some IndexError /\
  raised (first_update one_slot "active_material_2_length_remaining") = Some IndexError /\
  raised (first_update bare_slot "hotend_1_id") = Some KeyError /\
  raised (first_update bare_slot "active_material_1_guid") = Some KeyError.
Proof.
  vm_compute. repeat split.
Qed.

(** C4, as the code has it: for a GUID that reaches the extraction of
    [active_material_N_guid], if an entry of the catalogue has that GUID the
    sensor receives "material - color" of the first such entry; if no entry
    has it, no value is produced at all: the lookup raises [StopIteration],
    the sensor keeps the value it had, and the host sees a [RuntimeError]. *)
Theorem translate_hit_or_raise data self head extruder active_material g :
  In (_type self) guid_metrics ->
  first_head data = Ok head -> truthy head = true ->
  extruder_of head (_type self) 2 = Ok extruder ->
  getitem_str extruder "active_material" = Ok active_material ->
  truthy active_material = true ->
  getitem_str active_material "guid" = Ok g ->
  (forall d, find (fun d => str_eq (guid d) g) MATERIAL_LIST = Some d ->
     extract data self =
     (data, (set_state (VStr (String.append (material d)
                                (String.append " - " (color d))))
               (stamped data self), Ok tt))) /\
  ((forall d, In d MATERIAL_LIST -> str_eq (guid d) g = false) ->
     extract data self = (data, (stamped data self, Raise StopIteration)) /\
     _state (stamped data self) = _state self /\
     leave_coroutine (Raise StopIteration) = Some RuntimeError).
Proof.
  intros Hin Hhead Hth Hex Ham Hta Hg.
  rewrite (extract_active_material _ _ Hin).
  assert (Hguid : contains "guid" (_type self) = true)
    by (simpl in Hin; destruct Hin as [<- | [<- | []]]; reflexivity).
  assert (Hlen : contains "length_remaining" (_type self) = false)
    by (simpl in Hin; destruct Hin as [<- | [<- | []]]; reflexivity).
  unfold active_material_branch. run_M.
  rewrite Hhead, Hth, Hex, Ham, Hguid, Hlen, Hta, Hg. cbv beta iota.
  unfold __translate, next_material. split.
  - intros d Hd. rewrite Hd. reflexivity.
  - intros Hnone. rewrite (find_none_of_all _ _ Hnone). auto.
Qed.

Lemma translate_hit_or_raise_witness :
  let data : gmap string val :=
    {["heads" := sample_heads [sample_extruder pla_guid; sample_extruder unknown_guid]]} in
  let self := sample_sensor "active_material_2_guid" in
  (forall d, find (fun d => str_eq (guid d) (VStr unknown_guid)) MATERIAL_LIST = Some d ->
     extract data self =
     (data, (set_state (VStr (String.append (material d)
                                (String.append " - " (color d))))
               (stamped data self), Ok tt))) /\
  ((forall d, In d MATERIAL_LIST -> str_eq (guid d) (VStr unknown_guid) = false) ->
     extract data self = (data, (stamped data self, Raise StopIteration)) /\
     _state (stamped data self) = _state self /\
     leave_coroutine (Raise StopIteration) = Some RuntimeError).
Proof.
  apply (translate_hit_or_raise
           {["heads" := sample_heads [sample_extruder pla_guid; sample_extruder unknown_guid]]}
           (sample_sensor "active_material_2_guid")
           (VDict {["extruders" := VList [sample_extruder pla_guid; sample_extruder unknown_guid]]})
           (sample_extruder unknown_guid)
           (VDict {["guid" := VStr unknown_guid; "length_remaining" := VInt 4500]})
           (VStr unknown_guid)); try reflexivity.
  simpl. auto.
Defined.

(** C4 as stated fails: slot 1 holds a material whose GUID is in no entry of
    the catalogue; the update of [active_material_1_guid] raises to the host
    and the sensor holds no "unknown material" value, it stays null.  With the
    generic PLA GUID the same update yields "PLA - Generic". *)
Lemma unknown_guid_raises :
  let unknown := printer_reports {["heads" := sample_heads [sample_extruder unknown_guid]]} in
  let known := printer_reports {["heads" := sample_heads [sample_extruder pla_guid]]} in
  find (fun d => str_eq (guid d) (VStr unknown_guid)) MATERIAL_LIST = None /\
  raised (first_update unknown "active_material_1_guid") = Some RuntimeError /\
  _state (sensor' (first_update unknown "active_material_1_guid")) = VNone /\
  raised (first_update known "active_material_1_guid") = None /\
  _state (sensor' (first_update known "active_material_1_guid")) = VStr "PLA - Generic".
Proof.
  vm_compute. repeat split.
Qed.

(** *** Progress *)

Lemma float_zero_scaled (p : float) :
  (p =? 0)%float = true -> (p * 100)%float = p.
Proof.
  intros H. rewrite FloatAxioms.eqb_spec in H.
  rewrite <- (FloatAxioms.SF2Prim_Prim2SF p).
  destruct (Prim2SF p) as [s | s | | s m e]; try destruct s;
    try (vm_compute in H; discriminate); vm_compute; reflexivity.
Qed.

Lemma extract_progress data self :
  _type self = "progress" ->
  extract data self = progress_branch data (stamped data self).
Proof.
  intros Hty. unfold extract. cbn [_type set_last_updated]. rewrite Hty.
  eval_tests. reflexivity.
Qed.

(** C9: for the [progress] metric the extraction never raises on a numeric
    field and stores the snapshot's [progress] field multiplied by 100, as a
    float for a float and as an int for an int; it stores the int 0 when the
    field is absent; and a field of 0.37 gives 37. *)
Theorem progress_is_scaled data self :
  _type self = "progress" ->
  (forall p, data !! "progress" = Some (VFloat p) ->
     extract data self =
     (data, (set_state (VFloat (p * 100)%float) (stamped data self), Ok tt))) /\
  (forall z, data !! "progress" = Some (VInt z) ->
     extract data self =
     (data, (set_state (VInt (z * 100)) (stamped data self), Ok tt))) /\
  (data !! "progress" = None ->
     extract data self = (data, (set_state (VInt 0) (stamped data self), Ok tt))) /\
  (data !! "progress" = Some (VFloat 0.37) ->
     extract data self = (data, (set_state (VFloat 37) (stamped data self), Ok tt))).
Proof.
  intros Hty. rewrite (extract_progress _ _ Hty).
  assert (Hfloat : forall p, data !! "progress" = Some (VFloat p) ->
            progress_branch data (stamped data self) =
            (data, (set_state (VFloat (p * 100)%float) (stamped data self), Ok tt))).
  { intros p Hp. unfold progress_branch. rewrite Hp.
    cbn [default from_option id truthy mul_100].
    destruct (p =? 0)%float eqn:Hz; cbn [negb]; cbv beta iota.
    - rewrite (float_zero_scaled p Hz). reflexivity.
    - reflexivity. }
  split; [exact Hfloat|]. split; [|split].
  - intros z Hz. unfold progress_branch. rewrite Hz.
    cbn [default from_option id truthy mul_100].
    destruct (Z.eqb_spec z 0) as [-> | Hne]; reflexivity.
  - intros Hnone. unfold progress_branch. rewrite Hnone. reflexivity.
  - intros Hp. rewrite (Hfloat _ Hp). reflexivity.
Qed.

Lemma progress_is_scaled_witness :
  let data : gmap string val :=
    <["sampleTime" := VDatetime (seconds 1)]> (sample_payload PrintJob) in
  let self := sample_sensor "progress" in
  (forall p, data !! "progress" = Some (VFloat p) ->
     extract data self =
     (data, (set_state (VFloat (p * 100)%float) (stamped data self), Ok tt))) /\
  (forall z, data !! "progress" = Some (VInt z) ->
     extract data self =
     (data, (set_state (VInt (z * 100)) (stamped data self), Ok tt))) /\
  (data !! "progress" = None ->
     extract data self = (data, (set_state (VInt 0) (stamped data self), Ok tt))) /\
  (data !! "progress" = Some (VFloat 0.37) ->
     extract data self = (data, (set_state (VFloat 37) (stamped data self), Ok tt))).
Proof.
  apply (progress_is_scaled
           (<["sampleTime" := VDatetime (seconds 1)]> (sample_payload PrintJob))
           (sample_sensor "progress")).
  reflexivity.
Defined.

(** The same reading through the update hook and the [state] property. *)
Example progress_37_presented :
  let o := first_update sample_session "progress" in
  raised o = None /\ _state (sensor' o) = VFloat 37 /\ state (sensor' o) = VFloat 37.
Proof. vm_compute. repeat split. Qed.

(** *** The update hook never looks at the precision *)

Lemma blind_ret {A} (a : A) : decimal_blind (ret a).
Proof. intros d self. reflexivity. Qed.

Lemma blind_lift {A} (r : result A) : decimal_blind (lift r).
Proof. intros d self. reflexivity. Qed.

Lemma blind_assign v : decimal_blind (assign v).
Proof. intros d self. reflexivity. Qed.

Lemma blind_mbind {A B} (m : M A) (k : A -> M B) :
  decimal_blind m -> (forall a, decimal_blind (k a)) -> decimal_blind (mbind m k).
Proof.
  intros Hm Hk d self. unfold mbind. rewrite Hm.
  destruct (m self) as [s [a | e]]; [apply Hk | reflexivity].
Qed.

Lemma blind_when b (m : M unit) : decimal_blind m -> decimal_blind (when b m).
Proof. intros Hm. destruct b; [exact Hm | apply blind_ret]. Qed.

Ltac blind :=
  repeat first
    [ apply blind_ret | apply blind_lift | apply blind_assign
    | apply blind_when | apply blind_mbind
    | match goal with
      | |- forall _, decimal_blind _ => intro
      | |- decimal_blind (if ?b then _ else _) => destruct b
      end ].

Lemma blind_bed data ty : decimal_blind (bed_branch data ty).
Proof. unfold bed_branch. blind. Qed.

Lemma blind_hotend data ty : decimal_blind (hotend_branch data ty).
Proof. unfold hotend_branch. blind. Qed.

Lemma blind_active_material data ty : decimal_blind (active_material_branch data ty).
Proof. unfold active_material_branch. blind. Qed.

Lemma blind_state data : decimal_blind (state_branch data).
Proof. unfold state_branch. blind. Qed.

Lemma extract_with_decimal data d self :
  extract data (with_decimal d self) =
  let '(data', (s, r)) := extract data self in (data', (with_decimal d s, r)).
Proof.
  unfold extract. cbn [_type set_last_updated with_decimal].
  set (self1 := set_last_updated _ self).
  change (set_last_updated _ (with_decimal d self)) with (with_decimal d self1).
  destruct (String.eqb (_type self) "status"); [reflexivity|].
  destruct (String.eqb (_type self) "state").
  { rewrite blind_state. destruct (state_branch data self1). reflexivity. }
  destruct (String.eqb (_type self) "progress").
  { unfold progress_branch.
    destruct (truthy _); [|reflexivity].
    destruct (mul_100 _); reflexivity. }
  destruct (contains "bed" (_type self)).
  { rewrite blind_bed. destruct (bed_branch _ _ self1). reflexivity. }
  destruct (contains "hotend" (_type self)).
  { rewrite blind_hotend. destruct (hotend_branch _ _ self1). reflexivity. }
  destruct (contains "active_material" (_type self)).
  { rewrite blind_active_material. destruct (active_material_branch _ _ self1).
    reflexivity. }
  reflexivity.
Qed.

Lemma async_update_with_decimal session clock now source d self :
  let o := async_update session clock now source self in
  async_update session clock now source (with_decimal d self) =
  {| source' := source' o; sensor' := with_decimal d (sensor' o);
     requests := requests o; raised := raised o |}.
Proof.
  unfold async_update.
  destruct (UltimakerStatusData.raised _); [reflexivity|].
  destruct (UltimakerStatusData.latest_data _) as [data|]; [|reflexivity].
  destruct (data_truthy (Some data)); [|reflexivity].
  rewrite extract_with_decimal.
  destruct (extract data self) as [data' [s r]]. reflexivity.
Qed.

(** C8: the [state] property presents a float rounded to the configured
    number of decimals (2 unless configured otherwise) and every other value,
    a string for instance, exactly as stored; the rounding happens nowhere
    else: the value the update hook stores, the exception it raises and the
    data source it leaves are the same whatever the configured precision.  A
    stored 23.456 is presented as 23.5 at precision 1 and stays 23.456 in
    the sensor. *)
Theorem state_rounds_at_presentation self :
  (forall f, _state self = VFloat f ->
     state self = VFloat (Py.round f (_decimal self))) /\
  ((forall f, _state self <> VFloat f) -> state self = _state self) /\
  (forall s, _state self = VStr s -> state self = VStr s) /\
  (forall session clock now source d,
     let o := async_update session clock now source self in
     let o' := async_update session clock now source (with_decimal d self) in
     _state (sensor' o') = _state (sensor' o) /\ raised o' = raised o /\
     source' o' = source' o) /\
  CONF_DECIMAL_default = 2%N /\
  (let reading := set_state (VFloat 23.456) (with_decimal 1 self) in
   state reading = VFloat 23.5 /\ _state reading = VFloat 23.456).
Proof.
  split; [|split; [|split; [|split; [|split]]]].
  - intros f Hf. unfold state. rewrite Hf. reflexivity.
  - intros Hnf. unfold state. destruct (_state self); try reflexivity.
    exfalso. eapply Hnf. reflexivity.
  - intros s Hs. unfold state. rewrite Hs. reflexivity.
  - intros session clock now source d o o'. subst o o'.
    rewrite async_update_with_decimal. cbv zeta. cbn [sensor' raised source'].
    repeat split.
  - reflexivity.
  - split; vm_compute; reflexivity.
Qed.

(** *** No snapshot *)

Lemma refresh_never_raises session now source :
  UltimakerStatusData.raised (UltimakerStatusData.refresh session now source) = None.
Proof.
  unfold UltimakerStatusData.refresh.
  destruct (UltimakerStatusData.host_set source) as [host|]; [|reflexivity].
  repeat match goal with
         | |- context [UltimakerStatusData.fetch_data ?s ?u] =>
             let F := fresh "F" in
             destruct (UltimakerStatusData.fetch_data s u) eqn:F;
             [| apply fetch_data_raise in F as [_ F];
                rewrite on_error_client by exact F; reflexivity ]
         end.
  reflexivity.
Qed.

Lemma async_update_never_raises session clock now source :
  UltimakerStatusData.raised
    (UltimakerStatusData.async_update session clock now source) = None.
Proof.
  unfold UltimakerStatusData.async_update.
  destruct (UltimakerStatusData.throttled _ _); [reflexivity|].
  apply refresh_never_raises.
Qed.

(** Without a host no call ever creates a snapshot. *)
Lemma no_host_no_snapshot session clock now source :
  UltimakerStatusData.host_set source = None ->
  UltimakerStatusData.latest_data source = None ->
  UltimakerStatusData.latest_data
    (UltimakerStatusData.self'
       (UltimakerStatusData.async_update session clock now source)) = None /\
  UltimakerStatusData.requests
    (UltimakerStatusData.async_update session clock now source) = [].
Proof.
  intros Hh Hd. unfold UltimakerStatusData.async_update.
  destruct (UltimakerStatusData.throttled _ _); [auto|].
  unfold UltimakerStatusData.refresh.
  change (UltimakerStatusData.host_set _) with (UltimakerStatusData.host_set source).
  rewrite Hh. auto.
Qed.

(** The data source is ready after its first call and stays so. *)
Lemma refresh_ready session now source :
  ready (UltimakerStatusData.self' (UltimakerStatusData.refresh session now source)).
Proof.
  unfold ready, UltimakerStatusData.refresh.
  destruct (UltimakerStatusData.host_set source) as [host|] eqn:Hh; [|left; exact Hh].
  right.
  repeat match goal with
         | |- context [UltimakerStatusData.fetch_data ?s ?u] =>
             let F := fresh "F" in
             destruct (UltimakerStatusData.fetch_data s u) eqn:F;
             [| apply fetch_data_raise in F as [_ F];
                rewrite on_error_client by exact F; eexists; reflexivity ]
         end.
  eexists. reflexivity.
Qed.


Lemma async_update_ready session clock now source :
  ready source ->
  ready (UltimakerStatusData.self'
           (UltimakerStatusData.async_update session clock now source)).
Proof.
  intros Hr. unfold UltimakerStatusData.async_update.
  destruct (UltimakerStatusData.throttled _ _); [exact Hr | apply refresh_ready].
Qed.

Lemma hook_without_snapshot session clock now source self :
  UltimakerStatusData.latest_data
    (UltimakerStatusData.self'
       (UltimakerStatusData.async_update session clock now source)) = None ->
  async_update session clock now source self =
  {| source' := UltimakerStatusData.self'
                  (UltimakerStatusData.async_update session clock now source);
     sensor' := self;
     requests := UltimakerStatusData.requests
                   (UltimakerStatusData.async_update session clock now source);
     raised := None |}.
Proof.
  intros Hnone. unfold async_update.
  rewrite async_update_never_raises, Hnone. reflexivity.
Qed.

(** A ready data source without a snapshot has no host: the hook then issues
    no request and changes neither the sensor nor the data source's
    snapshot. *)
Lemma hook_on_ready_source session clock now source self :
  ready source ->
  UltimakerStatusData.latest_data source = None ->
  let h := async_update session clock now source self in
  raised h = None /\ sensor' h = self /\ requests h = [] /\
  UltimakerStatusData.latest_data (source' h) = None.
Proof.
  intros [Hh | [d Hd]] Hnone h; [|congruence]. subst h.
  destruct (no_host_no_snapshot session clock now source Hh Hnone) as [Hl Hr].
  rewrite (hook_without_snapshot _ _ _ _ _ Hl). cbn [raised sensor' requests source'].
  auto.
Qed.

(** C10: when the snapshot the update hook reads back from the data source is
    [None] (no refresh has published one, as is always the case without a
    host), the hook raises nothing and leaves the sensor as it was, its value
    and its last-updated stamp included; for a sensor just constructed both
    are [None]. *)
Theorem no_snapshot_no_change session clock now source self :
  let o := UltimakerStatusData.async_update session clock now source in
  UltimakerStatusData.latest_data (UltimakerStatusData.self' o) = None ->
  let h := async_update session clock now source self in
  raised h = None /\ sensor' h = self /\
  _state (sensor' h) = _state self /\
  _last_updated (sensor' h) = _last_updated self /\
  device_state_attributes (sensor' h) = device_state_attributes self /\
  source' h = UltimakerStatusData.self' o /\
  (forall name sensor_type unit icon decimal,
     _state (__init__ name sensor_type unit icon decimal) = VNone /\
     _last_updated (__init__ name sensor_type unit icon decimal) = VNone).
Proof.
  intros o Hnone h. subst o h.
  rewrite (hook_without_snapshot _ _ _ _ _ Hnone). cbn [raised sensor' source'].
  repeat split.
Qed.

Lemma no_snapshot_no_change_witness :
  let source := UltimakerStatusData.__init__ None in
  let self := sample_sensor "status" in
  let o := UltimakerStatusData.async_update sample_session (seconds 0) (seconds 0) source in
  let h := async_update sample_session (seconds 0) (seconds 0) source self in
  raised h = None /\ sensor' h = self /\
  _state (sensor' h) = _state self /\
  _last_updated (sensor' h) = _last_updated self /\
  device_state_attributes (sensor' h) = device_state_attributes self /\
  source' h = UltimakerStatusData.self' o /\
  (forall name sensor_type unit icon decimal,
     _state (__init__ name sensor_type unit icon decimal) = VNone /\
     _last_updated (__init__ name sensor_type unit icon decimal) = VNone).
Proof.
  apply (no_snapshot_no_change sample_session (seconds 0) (seconds 0)
           (UltimakerStatusData.__init__ None) (sample_sensor "status")).
  reflexivity.
Defined.

End Sensor.

(** ** Further properties of the data source *)

Section DataSourceMore.
Import UltimakerStatusData.

(** X1: [fetch_data] raises exactly when the request itself raised an
    [aiohttp.ClientError], and then re-raises that exception; a time-out, any
    other exception of the request and an unparsable body all give the empty
    dict, and a parsed body is returned as it is. *)
Theorem fetch_data_raises_only_connection_errors session url :
  (forall e, fetch_data session url = Raise e <->
             session url = Raise e /\ is_ClientError e = true) /\
  (forall r payload, session url = Ok r -> json r = Ok payload ->
     fetch_data session url = Ok payload) /\
  (forall r e, session url = Ok r -> json r = Raise e ->
     fetch_data session url = Ok ∅) /\
  (forall e, session url = Raise e -> is_ClientError e = false ->
     fetch_data session url = Ok ∅).
Proof.
  split; [|split; [|split]].
  - intros e. split.
    + apply fetch_data_raise.
    + intros [Hs Hc]. apply fetch_data_client_error; assumption.
  - intros r payload Hs Hj. eapply fetch_data_body; eauto.
  - intros r e Hs Hj. unfold fetch_data, parse_body. rewrite Hs, Hj. reflexivity.
  - intros e Hs Hc. unfold fetch_data, parse_body. rewrite Hs, Hc.
    destruct (is_TimeoutError e); reflexivity.
Qed.




(** X3: a connection failure ends the cycle at once: when the endpoints before
    [ep] are fetched without a connection failure and the request to [ep]
    raises an [aiohttp.ClientError], the endpoints after [ep] are never
    requested, and what the earlier endpoints returned is dropped in favour of
    the fallback snapshot. *)
Theorem connection_failure_stops_cycle session clock now source host ep e :
  host_set source = Some host ->
  throttled (_last_attempt source) clock = false ->
  (forall ep', In ep' (up_to ep) -> ep' <> ep ->
     exists payload, fetch_data session (url_of host ep') = Ok payload) ->
  session (url_of host ep) = Raise e ->
  is_ClientError e = true ->
  let o := async_update session clock now source in
  requests o = map (url_of host) (up_to ep) /\
  latest_data (self' o) = Some (fallback now).
Proof.
  intros Hh Ht Hbefore Hs He o. subst o.
  assert (Hf : fetch_data session (url_of host ep) = Raise e)
    by (apply fetch_data_client_error; assumption).
  rewrite async_update_unthrottled by exact Ht.
  unfold refresh. change (host_set _) with (host_set source). rewrite Hh.
  destruct ep; cbn [url_of up_to map] in *.
  - rewrite Hf, on_error_client by exact He. auto.
  - destruct (Hbefore Printer) as [p Hp]; [cbn; auto | discriminate |].
    cbn [url_of] in Hp. rewrite Hp, Hf, on_error_client by exact He. auto.
  - destruct (Hbefore Printer) as [p Hp]; [cbn; auto | discriminate |].
    destruct (Hbefore PrintJob) as [j Hj]; [cbn; auto | discriminate |].
    cbn [url_of] in Hp, Hj. rewrite Hp, Hj, Hf, on_error_client by exact He. auto.
Qed.

Lemma connection_failure_stops_cycle_witness :
  let session := session_of sample_host
    (fun ep => match ep with
               | Printer => body (sample_payload Printer)
               | _ => Raise ClientError
               end) in
  let o := async_update session (seconds 0) (seconds 1) sample_source in
  requests o = map (url_of sample_host) (up_to PrintJob) /\
  latest_data (self' o) = Some (fallback (seconds 1)).
Proof.
  apply (connection_failure_stops_cycle
           (session_of sample_host
              (fun ep => match ep with
                         | Printer => body (sample_payload Printer)
                         | _ => Raise ClientError
                         end))
           (seconds 0) (seconds 1) sample_source sample_host PrintJob ClientError);
    try reflexivity.
  intros ep' Hin Hne. destruct ep'.
  - eexists. reflexivity.
  - contradiction.
  - cbn in Hin. destruct Hin as [H | [H | []]]; discriminate.
Defined.



End DataSourceMore.

(** ** Further properties of the sensor *)

Section SensorMore.
Import UltimakerStatusSensor.

Lemma same_but_state_refl self : same_but_state self self.
Proof. repeat split. Qed.

Lemma same_but_state_trans a b c :
  same_but_state a b -> same_but_state b c -> same_but_state a c.
Proof.
  unfold same_but_state. intros (?&?&?&?&?&?) (?&?&?&?&?&?).
  repeat split; congruence.
Qed.

Lemma only_ret {A} (a : A) : writes_state_only (ret a).
Proof. intros self. apply same_but_state_refl. Qed.

Lemma only_lift {A} (r : result A) : writes_state_only (lift r).
Proof. intros self. apply same_but_state_refl. Qed.

Lemma only_assign v : writes_state_only (assign v).
Proof. intros self. repeat split. Qed.

Lemma only_mbind {A B} (m : M A) (k : A -> M B) :
  writes_state_only m -> (forall a, writes_state_only (k a)) ->
  writes_state_only (mbind m k).
Proof.
  intros Hm Hk self. unfold mbind. specialize (Hm self).
  destruct (m self) as [s [a | e]]; cbn [fst] in *; [|exact Hm].
  eapply same_but_state_trans; [apply Hk | exact Hm].
Qed.

Lemma only_when b (m : M unit) : writes_state_only m -> writes_state_only (when b m).
Proof. intros Hm. destruct b; [exact Hm | apply only_ret]. Qed.

Ltac only_state :=
  repeat first
    [ apply only_ret | apply only_lift | apply only_assign
    | apply only_when | apply only_mbind
    | match goal with
      | |- forall _, writes_state_only _ => intro
      | |- writes_state_only (if ?b then _ else _) => destruct b
      end ].

Lemma only_bed data ty : writes_state_only (bed_branch data ty).
Proof. unfold bed_branch. only_state. Qed.

Lemma only_hotend data ty : writes_state_only (hotend_branch data ty).
Proof. unfold hotend_branch. only_state. Qed.

Lemma only_active_material data ty :
  writes_state_only (active_material_branch data ty).
Proof. unfold active_material_branch. only_state. Qed.

Lemma only_state_branch data : writes_state_only (state_branch data).
Proof. unfold state_branch. only_state. Qed.

Lemma progress_branch_cases data self :
  same_but_state (fst (snd (progress_branch data self))) self /\
  (fst (progress_branch data self) = data \/
   exists l v, data !! "progress" = Some (VList l) /\
               fst (progress_branch data self) = <["progress" := v]> data).
Proof.
  unfold progress_branch.
  destruct (truthy _); [|split; [repeat split | left; reflexivity]].
  destruct (mul_100 _) as [v'|e]; [|split; [repeat split | left; reflexivity]].
  split; [repeat split|].
  destruct (data !! "progress") as [[]|] eqn:Hp; cbn [default from_option id];
    try (left; reflexivity).
  right. eauto.
Qed.

Lemma extract_frame data self :
  same_but_state (fst (snd (extract data self))) (stamped data self) /\
  (fst (extract data self) = data \/
   exists l v, _type self = "progress" /\
               data !! "progress" = Some (VList l) /\
               fst (extract data self) = <["progress" := v]> data).
Proof.
  unfold extract. cbn [_type set_last_updated].
  fold (stamped data self).
  destruct (String.eqb (_type self) "status").
  { split; [repeat split | left; reflexivity]. }
  destruct (String.eqb (_type self) "state").
  { split; [apply only_state_branch | left; reflexivity]. }
  destruct (String.eqb_spec (_type self) "progress") as [Hp|_].
  { destruct (progress_branch_cases data (stamped data self)) as [Hs Hd].
    split; [exact Hs|]. destruct Hd as [Hd | (l & v & Hl & Hd)]; [left; exact Hd|].
    right. eauto. }
  destruct (contains "bed" (_type self)).
  { split; [apply only_bed | left; reflexivity]. }
  destruct (contains "hotend" (_type self)).
  { split; [apply only_hotend | left; reflexivity]. }
  destruct (contains "active_material" (_type self)).
  { split; [apply only_active_material | left; reflexivity]. }
  split; [apply same_but_state_refl | left; reflexivity].
Qed.

(** X5: whatever the snapshot holds and whether or not the extraction raises,
    the update of a sensor writes only its value and its last-updated stamp:
    name, metric identifier, unit, icon and precision are never changed, and
    the stamp is the snapshot's [sampleTime] (null when the snapshot has
    none), taken before the value is extracted.  The shared snapshot is left
    as it is, except that a list under [progress] is extended in place. *)
Theorem extract_writes_value_and_stamp data self :
  let o := extract data self in
  same_but_state (fst (snd o)) (stamped data self) /\
  _last_updated (fst (snd o)) = default VNone (data !! "sampleTime") /\
  (fst o = data \/
   exists l v, _type self = "progress" /\ data !! "progress" = Some (VList l) /\
               fst o = <["progress" := v]> data).
Proof.
  cbv zeta. destruct (extract_frame data self) as [Hs Hd].
  split; [exact Hs|]. split; [|exact Hd].
  destruct Hs as (_&_&_&_&_&->). reflexivity.
Qed.


Lemma stamped_truthy d :
  is_Some (d !! "sampleTime") -> data_truthy (Some d) = true.
Proof.
  intros [v Hv]. cbn. apply negb_true_iff, bool_decide_eq_false.
  intros Hdom. assert (Hin : "sampleTime" ∈ dom d) by (apply elem_of_dom; eauto).
  rewrite Hdom in Hin. set_solver.
Qed.





End SensorMore.

(** ** Reading the metrics from a well-formed snapshot *)

Section Readings.
Import UltimakerStatusSensor.

Ltac eval_tests :=
  repeat match goal with
         | |- context [String.eqb ?a ?b] =>
             let v := eval vm_compute in (String.eqb a b) in
             change (String.eqb a b) with v
         | |- context [contains ?a ?b] =>
             let v := eval vm_compute in (contains a b) in
             change (contains a b) with v
         end;
  cbv beta iota.

Ltac run_M := unfold when, mbind, lift, assign, ret; cbv beta iota.







Lemma seq_index_nth {A} (l : list A) (i : Z) (x : A) :
  0 <= i -> nth_error l (Z.to_nat i) = Some x -> seq_index l i = Ok x.
Proof.
  intros Hi Hn. unfold seq_index.
  assert (Hlt : (Z.to_nat i < length l)%nat)
    by (apply nth_error_Some; congruence).
  cbv zeta. rewrite (proj2 (Z.ltb_ge i 0) Hi). cbv iota.
  rewrite (proj2 (Z.ltb_ge i 0) Hi).
  rewrite (proj2 (Z.leb_gt (Z.of_nat (length l)) i)) by lia.
  cbn [orb]. rewrite Hn. reflexivity.
Qed.

Lemma truthy_dict d k (v : val) : d !! k = Some v -> truthy (VDict d) = true.
Proof.
  intros H. cbn. apply negb_true_iff, bool_decide_eq_false.
  intros Hdom. assert (Hin : k ∈ dom d) by (apply elem_of_dom; eauto).
  rewrite Hdom in Hin. set_solver.
Qed.

Lemma first_head_of_slot data n extruder :
  slot_holds data n extruder ->
  exists head extruders,
    first_head data = Ok (VDict head) /\ truthy (VDict head) = true /\
    head !! "extruders" = Some (VList extruders) /\
    nth_error extruders (Z.to_nat (n - 1)) = Some extruder.
Proof.
  intros (heads & head & extruders & Hh & He & Hn).
  exists head, extruders. repeat split; auto.
  - unfold first_head. rewrite Hh. reflexivity.
  - eapply truthy_dict; eauto.
Qed.

Lemma metric_slot_index (n : Z) (head : val) :
  n = 1 \/ n = 2 ->
  (forall ty, In ty (hotend_metrics n) ->
     extruder_of head ty 1 =
     bind (getitem_str head "extruders") (fun e => getitem_int e (n - 1))) /\
  (forall ty, In ty (active_material_metrics n) ->
     extruder_of head ty 2 =
     bind (getitem_str head "extruders") (fun e => getitem_int e (n - 1))).
Proof.
  intros Hn. split.
  - destruct Hn as [-> | ->]; cbn; intros ty [<- | [<- | [<- | []]]]; reflexivity.
  - destruct Hn as [-> | ->]; cbn; intros ty [<- | [<- | []]]; reflexivity.
Qed.

(** X11: the slot that is read is the slot the metric identifier names: for
    each of the six hotend metrics and the four active-material metrics the
    number in the identifier parses, and the extruder taken from a head is
    entry [N - 1] of its [extruders]; with the three general and the three bed
    metrics these are all sixteen identifiers of [SENSOR_TYPES]. *)
Theorem metric_names_its_slot (n : Z) (head : val) :
  n = 1 \/ n = 2 ->
  (forall ty, In ty (hotend_metrics n) ->
     extruder_of head ty 1 =
     bind (getitem_str head "extruders") (fun e => getitem_int e (n - 1))) /\
  (forall ty, In ty (active_material_metrics n) ->
     extruder_of head ty 2 =
     bind (getitem_str head "extruders") (fun e => getitem_int e (n - 1))) /\
  (forall key, In key sensor_keys <->
     In key (["status"; "state"; "progress"] ++ bed_metrics ++
             hotend_metrics 1 ++ hotend_metrics 2 ++
             active_material_metrics 1 ++ active_material_metrics 2)).
Proof.
  intros Hn. destruct (metric_slot_index n head Hn) as [Hh Ha].
  split; [exact Hh|]. split; [exact Ha|].
  intros key. cbn. tauto.
Qed.

Lemma metric_names_its_slot_witness :
  (forall ty, In ty (hotend_metrics 2) ->
     extruder_of (sample_heads []) ty 1 =
     bind (getitem_str (sample_heads []) "extruders") (fun e => getitem_int e (2 - 1))) /\
  (forall ty, In ty (active_material_metrics 2) ->
     extruder_of (sample_heads []) ty 2 =
     bind (getitem_str (sample_heads []) "extruders") (fun e => getitem_int e (2 - 1))) /\
  (forall key, In key sensor_keys <->
     In key (["status"; "state"; "progress"] ++ bed_metrics ++
             hotend_metrics 1 ++ hotend_metrics 2 ++
             active_material_metrics 1 ++ active_material_metrics 2)).
Proof.
  apply (metric_names_its_slot 2 (sample_heads [])). right. reflexivity.
Defined.

Lemma extract_hotend data self n :
  n = 1 \/ n = 2 -> In (_type self) (hotend_metrics n) ->
  extract data self = (data, hotend_branch data (_type self) (stamped data self)).
Proof.
  intros Hn Hin. unfold extract. cbn [_type set_last_updated].
  destruct Hn as [-> | ->]; cbn in Hin;
    destruct Hin as [<- | [<- | [<- | []]]]; eval_tests; reflexivity.
Qed.

Lemma extract_active data self n :
  n = 1 \/ n = 2 -> In (_type self) (active_material_metrics n) ->
  extract data self =
  (data, active_material_branch data (_type self) (stamped data self)).
Proof.
  intros Hn Hin. unfold extract. cbn [_type set_last_updated].
  destruct Hn as [-> | ->]; cbn in Hin;
    destruct Hin as [<- | [<- | []]]; eval_tests; reflexivity.
Qed.

Lemma extruder_of_slot data n extruder ty k :
  n = 1 \/ n = 2 ->
  slot_holds data n extruder ->
  (k = 1 /\ In ty (hotend_metrics n) \/ k = 2 /\ In ty (active_material_metrics n)) ->
  exists head,
    first_head data = Ok head /\ truthy head = true /\
    extruder_of head ty k = Ok extruder.
Proof.
  intros Hn Hslot Hk.
  destruct (first_head_of_slot _ _ _ Hslot) as (head & extruders & Hf & Ht & He & Hnth).
  exists (VDict head). split; [exact Hf|]. split; [exact Ht|].
  assert (Hget : bind (getitem_str (VDict head) "extruders")
                   (fun e => getitem_int e (n - 1)) = Ok extruder).
  { cbn [getitem_str bind]. rewrite He. cbn [getitem_int].
    apply seq_index_nth; [lia | exact Hnth]. }
  destruct (metric_slot_index n (VDict head) Hn) as [Hh Ha].
  destruct Hk as [[-> Hin] | [-> Hin]]; [rewrite (Hh _ Hin) | rewrite (Ha _ Hin)];
    exact Hget.
Qed.

(** X8: on a snapshot whose first head has an extruder in slot [N] with a
    non-empty [hotend] object, the three metrics of hotend [N] read that
    object: [hotend_N_temperature] is [temperature.current],
    [hotend_N_temperature_target] is [temperature.target] (each null when the
    key is absent from the temperature object), and [hotend_N_id] is [id];
    none of them raises. *)
Theorem hotend_metrics_read_slot data self n extruder hot_end temperature id
    ty_current ty_target ty_id :
  n = 1 \/ n = 2 ->
  hotend_metrics n = [ty_current; ty_target; ty_id] ->
  slot_holds data n (VDict extruder) ->
  extruder !! "hotend" = Some (VDict hot_end) ->
  hot_end !! "temperature" = Some (VDict temperature) ->
  hot_end !! "id" = Some id ->
  (_type self = ty_current ->
     extract data self =
     (data, (set_state (default VNone (temperature !! "current")) (stamped data self),
             Ok tt))) /\
  (_type self = ty_target ->
     extract data self =
     (data, (set_state (default VNone (temperature !! "target")) (stamped data self),
             Ok tt))) /\
  (_type self = ty_id ->
     extract data self = (data, (set_state id (stamped data self), Ok tt))).
Proof.
  intros Hn Hnames Hslot Hhot Htemp Hid.
  assert (Hth : truthy (VDict hot_end) = true) by (eapply truthy_dict; eauto).
  assert (Hall : forall ty, In ty (hotend_metrics n) -> _type self = ty ->
            extract data self =
            (data, hotend_branch data ty (stamped data self)) /\
            exists head, first_head data = Ok head /\ truthy head = true /\
                         extruder_of head ty 1 = Ok (VDict extruder)).
  { intros ty Hin Hty. split.
    - rewrite <- Hty in *. apply (extract_hotend _ _ n); assumption.
    - apply (extruder_of_slot data n); auto. }
  assert (Hin : forall ty, In ty [ty_current; ty_target; ty_id] ->
                           In ty (hotend_metrics n)) by (rewrite Hnames; auto).
  assert (Hc : contains "temperature" ty_current = true /\
               contains "target" ty_current = false /\
               contains "id" ty_current = false /\
               contains "temperature" ty_target = true /\
               contains "target" ty_target = true /\
               contains "id" ty_target = false /\
               contains "temperature" ty_id = false /\
               contains "id" ty_id = true).
  { destruct Hn as [-> | ->]; cbn in Hnames; injection Hnames as <- <- <-;
      vm_compute; repeat split. }
  destruct Hc as (C1 & C2 & C3 & C4 & C5 & C6 & C7 & C8).
  split; [|split]; intros Hty.
  - destruct (Hall ty_current) as [-> (head & Hf & Ht & He)]; [apply Hin; cbn; auto | exact Hty |].
    unfold hotend_branch. run_M. rewrite Hf, Ht, He. cbv beta iota.
    cbn [getitem_str]. rewrite Hhot. cbv beta iota.
    rewrite C1, C2, C3, Hth. cbn [andb]. cbv beta iota.
    cbn [getitem_str]. rewrite Htemp. reflexivity.
  - destruct (Hall ty_target) as [-> (head & Hf & Ht & He)]; [apply Hin; cbn; auto | exact Hty |].
    unfold hotend_branch. run_M. rewrite Hf, Ht, He. cbv beta iota.
    cbn [getitem_str]. rewrite Hhot. cbv beta iota.
    rewrite C4, C5, C6, Hth. cbn [andb]. cbv beta iota.
    cbn [getitem_str]. rewrite Htemp. reflexivity.
  - destruct (Hall ty_id) as [-> (head & Hf & Ht & He)]; [apply Hin; cbn; auto | exact Hty |].
    unfold hotend_branch. run_M. rewrite Hf, Ht, He. cbv beta iota.
    cbn [getitem_str]. rewrite Hhot. cbv beta iota.
    rewrite C7, C8, Hth. cbn [andb]. cbv beta iota.
    cbn [getitem_str]. rewrite Hid. reflexivity.
Qed.

Lemma hotend_metrics_read_slot_witness :
  let extruder : gmap string val :=
    {["hotend" := VDict {["id" := VStr "AA 0.4";
                          "temperature" := VDict {["current" := VFloat 23.456;
                                                   "target" := VInt 0]}]}]} in
  let data : gmap string val :=
    {["heads" := sample_heads [sample_extruder pla_guid; VDict extruder]]} in
  let self := sample_sensor "hotend_2_temperature" in
  (_type self = "hotend_2_temperature" ->
     extract data self =
     (data, (set_state (default VNone
                          (({["current" := VFloat 23.456; "target" := VInt 0]}
                            : gmap string val) !! "current"))
               (stamped data self), Ok tt))) /\
  (_type self = "hotend_2_temperature_target" ->
     extract data self =
     (data, (set_state (default VNone
                          (({["current" := VFloat 23.456; "target" := VInt 0]}
                            : gmap string val) !! "target"))
               (stamped data self), Ok tt))) /\
  (_type self = "hotend_2_id" ->
     extract data self = (data, (set_state (VStr "AA 0.4") (stamped data self), Ok tt))).
Proof.
  apply (hotend_metrics_read_slot
           {["heads" := sample_heads
               [sample_extruder pla_guid;
                VDict {["hotend" := VDict {["id" := VStr "AA 0.4";
                          "temperature" := VDict {["current" := VFloat 23.456;
                                                   "target" := VInt 0]}]}]}]]}
           (sample_sensor "hotend_2_temperature") 2
           {["hotend" := VDict {["id" := VStr "AA 0.4";
                          "temperature" := VDict {["current" := VFloat 23.456;
                                                   "target" := VInt 0]}]}]}
           {["id" := VStr "AA 0.4";
             "temperature" := VDict {["current" := VFloat 23.456; "target" := VInt 0]}]}
           {["current" := VFloat 23.456; "target" := VInt 0]}
           (VStr "AA 0.4")); try reflexivity.
  - right. reflexivity.
  - eexists _, _, _. repeat split; reflexivity.
Defined.

(** X9: on a snapshot whose first head has an extruder in slot [N] with a
    non-empty [active_material] object, [active_material_N_length_remaining]
    is the [length_remaining] field divided by 1000: the float quotient for a
    float field, the correctly rounded quotient for an int field; a field that
    is a string raises [TypeError] and a missing field [KeyError], the sensor
    keeping its value. *)
Theorem length_remaining_in_metres data self n extruder active_material :
  n = 1 \/ n = 2 ->
  nth_error (active_material_metrics n) 1 = Some (_type self) ->
  slot_holds data n (VDict extruder) ->
  extruder !! "active_material" = Some (VDict active_material) ->
  is_Some (active_material !! "guid") ->
  (forall f, active_material !! "length_remaining" = Some (VFloat f) ->
     extract data self =
     (data, (set_state (VFloat (f / 1000)%float) (stamped data self), Ok tt))) /\
  (forall z q, active_material !! "length_remaining" = Some (VInt z) ->
     int_truediv z 1000 = Ok q ->
     extract data self = (data, (set_state (VFloat q) (stamped data self), Ok tt))) /\
  (forall s, active_material !! "length_remaining" = Some (VStr s) ->
     extract data self = (data, (stamped data self, Raise TypeError))) /\
  (active_material !! "length_remaining" = None ->
     extract data self = (data, (stamped data self, Raise KeyError))).
Proof.
  intros Hn Hty Hslot Ham [g Hg].
  assert (Hin : In (_type self) (active_material_metrics n))
    by (eapply nth_error_In; eauto).
  assert (Hta : truthy (VDict active_material) = true) by (eapply truthy_dict; eauto).
  destruct (extruder_of_slot data n (VDict extruder) (_type self) 2 Hn Hslot)
    as (head & Hf & Ht & He); [auto|].
  assert (Hc : contains "guid" (_type self) = false /\
               contains "length_remaining" (_type self) = true).
  { destruct Hn as [-> | ->]; cbn in Hty; injection Hty as <-; vm_compute; auto. }
  destruct Hc as [C1 C2].
  rewrite (extract_active _ _ n Hn Hin).
  unfold active_material_branch. run_M. rewrite Hf, Ht, He. cbv beta iota.
  cbn [getitem_str]. rewrite Ham. cbv beta iota.
  rewrite C1, C2, Hta. cbn [andb]. cbv beta iota. cbn [getitem_str].
  repeat split.
  - intros f ->. reflexivity.
  - intros z q -> Hq. cbv beta iota. cbn [truediv_1000]. rewrite Hq. reflexivity.
  - intros s ->. reflexivity.
  - intros ->. reflexivity.
Qed.

Lemma length_remaining_in_metres_witness :
  let active_material : gmap string val :=
    {["guid" := VStr pla_guid; "length_remaining" := VInt 4500]} in
  let data : gmap string val := {["heads" := sample_heads [sample_extruder pla_guid]]} in
  let self := sample_sensor "active_material_1_length_remaining" in
  (forall f, active_material !! "length_remaining" = Some (VFloat f) ->
     extract data self =
     (data, (set_state (VFloat (f / 1000)%float) (stamped data self), Ok tt))) /\
  (forall z q, active_material !! "length_remaining" = Some (VInt z) ->
     int_truediv z 1000 = Ok q ->
     extract data self = (data, (set_state (VFloat q) (stamped data self), Ok tt))) /\
  (forall s, active_material !! "length_remaining" = Some (VStr s) ->
     extract data self = (data, (stamped data self, Raise TypeError))) /\
  (active_material !! "length_remaining" = None ->
     extract data self = (data, (stamped data self, Raise KeyError))).
Proof.
  apply (length_remaining_in_metres
           {["heads" := sample_heads [sample_extruder pla_guid]]}
           (sample_sensor "active_material_1_length_remaining") 1
           {["hotend" := VDict {["id" := VStr "AA 0.4";
                              "temperature" := VDict {["current" := VFloat 23.456;
                                                       "target" := VInt 0]}]};
             "active_material" := VDict {["guid" := VStr pla_guid;
                                          "length_remaining" := VInt 4500]}]}
           {["guid" := VStr pla_guid; "length_remaining" := VInt 4500]});
    try reflexivity.
  - left. reflexivity.
  - eexists _, _, _. repeat split; reflexivity.
  - eexists. reflexivity.
Defined.

Lemma extract_bed_metric data self :
  In (_type self) bed_metrics ->
  extract data self = (data, bed_branch data (_type self) (stamped data self)).
Proof.
  intros Hin. unfold extract. cbn [_type set_last_updated].
  cbn in Hin. destruct Hin as [<- | [<- | [<- | []]]]; eval_tests; reflexivity.
Qed.

(** X12: on a snapshot with a [bed] object that has a non-empty [temperature]
    object, [bed_temperature] is [temperature.current],
    [bed_temperature_target] is [temperature.target] and [bed_type] is
    [bed.type], each null when its key is absent; none raises.  A [bed] that
    is a non-empty string instead of an object raises [AttributeError]. *)
Theorem bed_metrics_read_bed data self :
  (forall bed temperature k (v : val),
     data !! "bed" = Some (VDict bed) ->
     bed !! "temperature" = Some (VDict temperature) ->
     temperature !! k = Some v ->
     (_type self = "bed_temperature" ->
        extract data self =
        (data, (set_state (default VNone (temperature !! "current")) (stamped data self),
                Ok tt))) /\
     (_type self = "bed_temperature_target" ->
        extract data self =
        (data, (set_state (default VNone (temperature !! "target")) (stamped data self),
                Ok tt))) /\
     (_type self = "bed_type" ->
        extract data self =
        (data, (set_state (default VNone (bed !! "type")) (stamped data self), Ok tt)))) /\
  (forall s, data !! "bed" = Some (VStr s) -> s <> "" ->
     In (_type self) bed_metrics ->
     extract data self = (data, (stamped data self, Raise AttributeError))).
Proof.
  split.
  - intros bed temperature k v Hbed Htemp Hk.
    assert (Htb : truthy (VDict bed) = true) by (eapply truthy_dict; eauto).
    assert (Htt : truthy (VDict temperature) = true) by (eapply truthy_dict; eauto).
    repeat split; intros Hty;
      (rewrite extract_bed_metric by (rewrite Hty; cbn; auto));
      rewrite Hty; unfold bed_branch; rewrite Hbed; cbn [default from_option id];
      eval_tests; rewrite Htb; cbn [andb]; run_M; cbn [Py.get];
      try (rewrite Htemp; cbn [default from_option id]; rewrite Htt; cbv beta iota);
      reflexivity.
  - intros s Hs Hne Hin. rewrite (extract_bed_metric _ _ Hin).
    assert (Hts : truthy (VStr s) = true).
    { cbn. destruct (String.eqb_spec s ""); [contradiction | reflexivity]. }
    cbn in Hin. destruct Hin as [<- | [<- | [<- | []]]];
      unfold bed_branch; rewrite Hs; cbn [default from_option id];
      eval_tests; rewrite Hts; reflexivity.
Qed.

(** X10: the GUIDs of the material catalogue are pairwise distinct, and
    translating the GUID of any of its 80 entries gives that entry's
    "material - color"; a GUID that is not a string is never found. *)
Theorem catalogue_guids_translate :
  NoDup (map guid MATERIAL_LIST) /\
  length MATERIAL_LIST = 80%nat /\
  (forall d, In d MATERIAL_LIST ->
     __translate (VStr (guid d)) =
     Ok (VStr (String.append (material d) (String.append " - " (color d))))) /\
  (forall g, (forall s, g <> VStr s) -> __translate g = Raise StopIteration).
Proof.
  split; [|split; [reflexivity | split]].
  - apply (bool_decide_unpack _). vm_compute. exact I.
  - assert (H : forallb (fun d =>
                match __translate (VStr (guid d)) with
                | Ok (VStr s) =>
                    String.eqb s (String.append (material d)
                                    (String.append " - " (color d)))
                | _ => false
                end) MATERIAL_LIST = true) by (vm_compute; reflexivity).
    intros d Hd. pose proof (proj1 (forallb_forall _ _) H d Hd) as Hd'.
    cbv beta in Hd'.
    destruct (__translate (VStr (guid d))) as [[]|]; try discriminate.
    apply String.eqb_eq in Hd'. congruence.
  - intros g Hg. unfold __translate, next_material.
    rewrite find_none_of_all; [reflexivity|].
    intros d _. destruct g; try reflexivity. exfalso. eapply Hg. reflexivity.
Qed.

End Readings.

(** ** The platform set-up *)

Section Setup.
Import UltimakerStatusSensor.









End Setup.

(** ** What a sensor update can raise, and what it depends on *)

Section Updates.
Import UltimakerStatusSensor.

Lemma fails_bind {A B} (r : result A) (k : A -> result B) :
  fails_as_extraction r -> (forall a, fails_as_extraction (k a)) ->
  fails_as_extraction (bind r k).
Proof.
  intros Hr Hk e. destruct r as [a|e']; cbn; [apply Hk|].
  intros [= <-]. apply Hr. reflexivity.
Qed.

Lemma fails_seq_index {A} (l : list A) i : fails_as_extraction (seq_index l i).
Proof.
  intros e. unfold seq_index. cbv zeta.
  destruct (_ || _); [intros [= <-]; reflexivity|].
  destruct (nth_error _ _); [discriminate | intros [= <-]; reflexivity].
Qed.

Lemma fails_getitem_int v i : fails_as_extraction (getitem_int v i).
Proof.
  destruct v; cbn [getitem_int]; try (intros e [= <-]; reflexivity).
  - apply fails_bind; [apply fails_seq_index | intros a e; discriminate].
  - apply fails_seq_index.
Qed.

Lemma fails_getitem_str v k : fails_as_extraction (getitem_str v k).
Proof.
  destruct v; cbn [getitem_str]; try (intros e [= <-]; reflexivity).
  destruct (_ !! _); intros e; [discriminate | intros [= <-]; reflexivity].
Qed.

Lemma fails_get v k : fails_as_extraction (Py.get v k).
Proof. destruct v; cbn [Py.get]; intros e; try discriminate; intros [= <-]; reflexivity. Qed.

Lemma fails_replace v : fails_as_extraction (Py.replace v).
Proof. destruct v; cbn [Py.replace]; intros e; try discriminate; intros [= <-]; reflexivity. Qed.

Lemma fails_mul_100 v : fails_as_extraction (mul_100 v).
Proof. destruct v; cbn [mul_100]; intros e; try discriminate; intros [= <-]; reflexivity. Qed.

Lemma fails_int_truediv a b : fails_as_extraction (int_truediv a b).
Proof.
  destruct a; cbn [int_truediv]; cbv zeta; intros e; try discriminate;
    destruct (is_infinity _); try discriminate; intros [= <-]; reflexivity.
Qed.

Lemma fails_truediv_1000 v : fails_as_extraction (truediv_1000 v).
Proof.
  destruct v; cbn [truediv_1000]; try (intros e [= <-]; reflexivity);
    try (intros e; discriminate);
    (apply fails_bind; [apply fails_int_truediv | intros a e; discriminate]).
Qed.

Lemma fails_int_of_str s : fails_as_extraction (int_of_str s).
Proof.
  intros e. unfold int_of_str.
  match goal with |- match ?x with _ => _ end = _ -> _ => destruct x end;
    [discriminate | intros [= <-]; reflexivity].
Qed.

Lemma fails_translate g : fails_as_extraction (__translate g).
Proof.
  intros e. unfold __translate, next_material.
  destruct (find _ _); cbn; [discriminate | intros [= <-]; reflexivity].
Qed.

Lemma fails_first_head data : fails_as_extraction (first_head data).
Proof. apply fails_getitem_int. Qed.

Lemma fails_extruder_of head ty n : fails_as_extraction (extruder_of head ty n).
Proof.
  unfold extruder_of.
  repeat (apply fails_bind; [first [apply fails_seq_index | apply fails_int_of_str
                                   | apply fails_getitem_str] | intros ?]).
  apply fails_getitem_int.
Qed.

Lemma raises_ret {A} (a : A) : raises_as_extraction (ret a).
Proof. intros self e. discriminate. Qed.

Lemma raises_assign v : raises_as_extraction (assign v).
Proof. intros self e. discriminate. Qed.

Lemma raises_lift {A} (r : result A) :
  fails_as_extraction r -> raises_as_extraction (lift r).
Proof. intros Hr self. exact Hr. Qed.

Lemma raises_mbind {A B} (m : M A) (k : A -> M B) :
  raises_as_extraction m -> (forall a, raises_as_extraction (k a)) ->
  raises_as_extraction (mbind m k).
Proof.
  intros Hm Hk self. unfold mbind. specialize (Hm self).
  destruct (m self) as [s [a | e']]; cbn [snd] in *; [apply Hk|].
  intros e [= <-]. apply Hm. reflexivity.
Qed.

Lemma raises_when b (m : M unit) :
  raises_as_extraction m -> raises_as_extraction (when b m).
Proof. intros Hm. destruct b; [exact Hm | apply raises_ret]. Qed.

Ltac raises :=
  repeat first
    [ apply raises_ret | apply raises_assign | apply raises_when | apply raises_mbind
    | apply raises_lift;
      first [ apply fails_get | apply fails_getitem_str | apply fails_getitem_int
            | apply fails_first_head | apply fails_extruder_of | apply fails_translate
            | apply fails_truediv_1000 | apply fails_replace ]
    | match goal with
      | |- forall _, raises_as_extraction _ => intro
      | |- raises_as_extraction (if ?b then _ else _) => destruct b
      end ].

Lemma raises_bed data ty : raises_as_extraction (bed_branch data ty).
Proof. unfold bed_branch. raises. Qed.

Lemma raises_hotend data ty : raises_as_extraction (hotend_branch data ty).
Proof. unfold hotend_branch. raises. Qed.

Lemma raises_active_material data ty :
  raises_as_extraction (active_material_branch data ty).
Proof. unfold active_material_branch. raises. Qed.

Lemma raises_state_branch data : raises_as_extraction (state_branch data).
Proof. unfold state_branch. raises. Qed.

Lemma extract_fails_as_extraction data self :
  fails_as_extraction (snd (snd (extract data self))).
Proof.
  unfold extract. cbn [_type set_last_updated].
  destruct (String.eqb (_type self) "status"); [intros e; discriminate|].
  destruct (String.eqb (_type self) "state"); [apply raises_state_branch|].
  destruct (String.eqb (_type self) "progress").
  { unfold progress_branch. destruct (truthy _); [|intros e; discriminate].
    pose proof (fails_mul_100 (default (VInt 0) (data !! "progress"))) as Hm.
    destruct (mul_100 _) as [v'|e0]; [intros e; discriminate|].
    intros e [= <-]. apply Hm. reflexivity. }
  destruct (contains "bed" (_type self)); [apply raises_bed|].
  destruct (contains "hotend" (_type self)); [apply raises_hotend|].
  destruct (contains "active_material" (_type self)); [apply raises_active_material|].
  intros e; discriminate.
Qed.

(** X15: an exception that reaches the host from a sensor update is one of
    [IndexError], [KeyError], [TypeError], [AttributeError], [ValueError],
    [OverflowError] or [RuntimeError]: a connection failure, a time-out or a
    body that does not parse never gets there, and the [StopIteration] of a
    failed catalogue lookup arrives as [RuntimeError]. *)
Theorem sensor_update_exceptions session clock now source self e :
  raised (async_update session clock now source self) = Some e ->
  (is_extraction_error e = true /\ e <> StopIteration \/ e = RuntimeError) /\
  is_ClientError e = false /\ is_TimeoutError e = false.
Proof.
  unfold async_update. rewrite async_update_never_raises.
  destruct (UltimakerStatusData.latest_data _) as [d|]; [|discriminate].
  destruct (data_truthy (Some d)); [|discriminate].
  pose proof (extract_fails_as_extraction d self) as Hx.
  destruct (extract d self) as [d' [s r]]. cbn [snd raised] in *.
  destruct r as [u|e']; [discriminate|].
  specialize (Hx e' eq_refl).
  destruct e'; try discriminate; cbn [leave_coroutine]; intros [= <-];
    repeat split; auto; left; split; auto; discriminate.
Qed.

Lemma sensor_update_exceptions_witness :
  (is_extraction_error IndexError = true /\ IndexError <> StopIteration \/
   IndexError = RuntimeError) /\
  is_ClientError IndexError = false /\ is_TimeoutError IndexError = false.
Proof.
  apply (sensor_update_exceptions (printer_reports {["heads" := VList []]})
           (seconds 0) (seconds 0) sample_source (sample_sensor "hotend_1_id")).
  reflexivity.
Defined.

Lemma stateless_ret {A} (a : A) : stateless (ret a).
Proof. exists None, (Ok a). reflexivity. Qed.

Lemma stateless_lift {A} (r : result A) : stateless (lift r).
Proof. exists None, r. reflexivity. Qed.

Lemma stateless_assign v : stateless (assign v).
Proof. exists (Some v), (Ok tt). reflexivity. Qed.

Lemma stateless_mbind {A B} (m : M A) (k : A -> M B) :
  stateless m -> (forall a, stateless (k a)) -> stateless (mbind m k).
Proof.
  intros (ov & r & Hm) Hk. destruct r as [a|e].
  - destruct (Hk a) as (ov' & r' & Hka).
    exists (match ov' with Some v => Some v | None => ov end), r'.
    intros self. unfold mbind. rewrite Hm, Hka.
    destruct ov', ov; reflexivity.
  - exists ov, (Raise e). intros self. unfold mbind. rewrite Hm. reflexivity.
Qed.

Lemma stateless_when b (m : M unit) : stateless m -> stateless (when b m).
Proof. intros Hm. destruct b; [exact Hm | apply stateless_ret]. Qed.

Ltac no_state :=
  repeat first
    [ apply stateless_ret | apply stateless_lift | apply stateless_assign
    | apply stateless_when | apply stateless_mbind
    | match goal with
      | |- forall _, stateless _ => intro
      | |- stateless (if ?b then _ else _) => destruct b
      end ].

Lemma stateless_bed data ty : stateless (bed_branch data ty).
Proof. unfold bed_branch. no_state. Qed.

Lemma stateless_hotend data ty : stateless (hotend_branch data ty).
Proof. unfold hotend_branch. no_state. Qed.

Lemma stateless_active_material data ty : stateless (active_material_branch data ty).
Proof. unfold active_material_branch. no_state. Qed.

Lemma stateless_state_branch data : stateless (state_branch data).
Proof. unfold state_branch. no_state. Qed.

Lemma extract_outcome data ty :
  exists (data' : gmap string val) (ov : option val) (r : result unit),
    forall self, _type self = ty ->
      extract data self = (data', (store ov (stamped data self), r)).
Proof.
  assert (Hm : forall m : M unit, stateless m ->
            exists (data' : gmap string val) ov r, forall self,
              (data, m (stamped data self)) = (data', (store ov (stamped data self), r))).
  { intros m (ov & r & Hm). exists data, ov, r. intros self. rewrite Hm. reflexivity. }
  unfold extract. cbn [_type set_last_updated].
  destruct (String.eqb ty "status") eqn:E1.
  { destruct (Hm _ (stateless_assign (default (VStr "not connected") (data !! "status"))))
      as (d' & ov & r & H).
    exists d', ov, r. intros self ->. rewrite E1. apply H. }
  destruct (String.eqb ty "state") eqn:E2.
  { destruct (Hm _ (stateless_state_branch data)) as (d' & ov & r & H).
    exists d', ov, r. intros self ->. rewrite E1, E2. apply H. }
  destruct (String.eqb ty "progress") eqn:E3.
  { unfold progress_branch.
    destruct (truthy (default (VInt 0) (data !! "progress"))) eqn:Ht.
    - destruct (mul_100 (default (VInt 0) (data !! "progress"))) as [v'|e] eqn:Hv.
      + eexists _, (Some v'), (Ok tt). intros self ->. rewrite E1, E2, E3. reflexivity.
      + eexists _, (Some _), (Raise e). intros self ->. rewrite E1, E2, E3. reflexivity.
    - eexists _, (Some _), (Ok tt). intros self ->. rewrite E1, E2, E3. reflexivity. }
  destruct (contains "bed" ty) eqn:E4.
  { destruct (Hm _ (stateless_bed data ty)) as (d' & ov & r & H).
    exists d', ov, r. intros self ->. rewrite E1, E2, E3, E4. apply H. }
  destruct (contains "hotend" ty) eqn:E5.
  { destruct (Hm _ (stateless_hotend data ty)) as (d' & ov & r & H).
    exists d', ov, r. intros self ->. rewrite E1, E2, E3, E4, E5. apply H. }
  destruct (contains "active_material" ty) eqn:E6.
  { destruct (Hm _ (stateless_active_material data ty)) as (d' & ov & r & H).
    exists d', ov, r. intros self ->. rewrite E1, E2, E3, E4, E5, E6. apply H. }
  exists data, None, (Ok tt). intros self ->. rewrite E1, E2, E3, E4, E5, E6. reflexivity.
Qed.

(** X16: the extraction is a function of the snapshot and the metric
    identifier alone: for a given snapshot and identifier there is one outcome
    (returns or raises which exception) and at most one value, and every
    sensor of that identifier ends with this outcome and this value stored, or
    with the value it had when none is stored.  In particular two sensors of
    the same metric read the same value from the same snapshot, whatever they
    held before. *)
Theorem extraction_depends_on_snapshot_only data ty :
  exists (data' : gmap string val) (ov : option val) (r : result unit),
    (forall self, _type self = ty ->
       extract data self = (data', (store ov (stamped data self), r))) /\
    (forall self1 self2, _type self1 = ty -> _type self2 = ty ->
       snd (snd (extract data self1)) = snd (snd (extract data self2)) /\
       (forall v, ov = Some v ->
          _state (fst (snd (extract data self1))) = v /\
          _state (fst (snd (extract data self2))) = v) /\
       (ov = None ->
          _state (fst (snd (extract data self1))) = _state self1)).
Proof.
  destruct (extract_outcome data ty) as (data' & ov & r & H).
  exists data', ov, r. split; [exact H|].
  intros self1 self2 H1 H2. rewrite (H self1 H1), (H self2 H2). cbn [fst snd].
  split; [reflexivity|]. split.
  - intros v ->. split; reflexivity.
  - intros ->. reflexivity.
Qed.

End Updates.

(** ** What the host sees after an update *)

Section Presentation.
Import UltimakerStatusSensor.

(** X17: after a sensor update that found a snapshot, the sensor's
    last-updated attribute is the capture time of that snapshot, not the time
    of the update, and this also holds when the extraction of the value
    raised. *)
Theorem attributes_show_capture_time session clock now source self d t :
  let o := UltimakerStatusData.async_update session clock now source in
  UltimakerStatusData.latest_data (UltimakerStatusData.self' o) = Some d ->
  d !! "sampleTime" = Some (VDatetime t) ->
  let h := async_update session clock now source self in
  _last_updated (sensor' h) = VDatetime t /\
  device_state_attributes (sensor' h) = {["Last Updated" := VDatetime t]} /\
  requests h = UltimakerStatusData.requests o.
Proof.
  intros o Hd Ht h. subst o h. unfold async_update.
  rewrite async_update_never_raises, Hd.
  rewrite stamped_truthy by (rewrite Ht; eauto).
  destruct (extract_frame d self) as [(_ & _ & _ & _ & _ & Hl) _].
  destruct (extract d self) as [d' [s r]]. cbn [fst snd sensor' requests] in *.
  unfold device_state_attributes. rewrite Hl. cbn. rewrite Ht. auto.
Qed.

Lemma attributes_show_capture_time_witness :
  let h := async_update (printer_reports {["heads" := VList []]})
             (seconds 0) (seconds 7) sample_source (sample_sensor "hotend_1_id") in
  _last_updated (sensor' h) = VDatetime (seconds 7) /\
  device_state_attributes (sensor' h) = {["Last Updated" := VDatetime (seconds 7)]} /\
  requests h =
  UltimakerStatusData.requests
    (UltimakerStatusData.async_update (printer_reports {["heads" := VList []]})
       (seconds 0) (seconds 7) sample_source).
Proof.
  apply (attributes_show_capture_time (printer_reports {["heads" := VList []]})
           (seconds 0) (seconds 7) sample_source (sample_sensor "hotend_1_id")
           (<["sampleTime" := VDatetime (seconds 7)]> {["heads" := VList []]})
           (seconds 7)); reflexivity.
Defined.

(** X18: when every endpoint is reached but none yields a payload (each
    request times out or its body does not parse), the refresh still requests
    all three, raises nothing and publishes a snapshot that holds the capture
    time and nothing else; over it the [status] metric reads "not connected",
    as it does when the printer is unreachable. *)
Theorem no_payload_reads_not_connected session clock now source host self :
  UltimakerStatusData.host_set source = Some host ->
  UltimakerStatusData.throttled (UltimakerStatusData._last_attempt source) clock = false ->
  (forall ep,
     session (url_of host ep) = Raise TimeoutError \/
     exists r e, session (url_of host ep) = Ok r /\ json r = Raise e) ->
  _type self = "status" ->
  let o := UltimakerStatusData.async_update session clock now source in
  UltimakerStatusData.raised o = None /\
  UltimakerStatusData.requests o = map (url_of host) [Printer; PrintJob; System] /\
  UltimakerStatusData.latest_data (UltimakerStatusData.self' o) =
    Some {["sampleTime" := VDatetime now]} /\
  state (sensor' (async_update session clock now source self)) = VStr "not connected".
Proof.
  intros Hh Ht Hall Hty o.
  assert (Hf : forall ep, UltimakerStatusData.fetch_data session (url_of host ep) = Ok ∅).
  { intros ep. destruct (Hall ep) as [Hto | (r & e & Hr & Hj)].
    - apply (fetch_data_timeout _ _ TimeoutError); auto.
    - unfold UltimakerStatusData.fetch_data, UltimakerStatusData.parse_body.
      rewrite Hr, Hj. reflexivity. }
  assert (Ho : o = UltimakerStatusData.publish now
                     (map (url_of host) [Printer; PrintJob; System]) ∅
                     {| UltimakerStatusData._host := UltimakerStatusData._host source;
                        UltimakerStatusData._data := UltimakerStatusData._data source;
                        UltimakerStatusData._last_attempt := Some clock |}).
  { subst o. rewrite async_update_unthrottled by exact Ht.
    rewrite (refresh_merge _ _ _ host ∅ ∅ ∅);
      [ rewrite !(left_id_L ∅ (∪)); reflexivity | exact Hh
      | apply (Hf Printer) | apply (Hf PrintJob) | apply (Hf System) ]. }
  split; [rewrite Ho; reflexivity|]. split; [rewrite Ho; reflexivity|].
  split; [rewrite Ho; reflexivity|].
  unfold async_update. fold o. rewrite Ho.
  cbn [UltimakerStatusData.raised UltimakerStatusData.publish
       UltimakerStatusData.latest_data UltimakerStatusData.self'
       UltimakerStatusData.set_data UltimakerStatusData._data].
  rewrite stamped_truthy by (rewrite lookup_insert_eq; eauto).
  unfold extract. cbn [_type set_last_updated]. rewrite Hty. reflexivity.
Qed.

Lemma no_payload_reads_not_connected_witness :
  let session := session_of sample_host
    (fun ep => match ep with
               | PrintJob => Ok {| json := Raise ValueError |}
               | _ => Raise TimeoutError
               end) in
  let o := UltimakerStatusData.async_update session (seconds 0) (seconds 1) sample_source in
  UltimakerStatusData.raised o = None /\
  UltimakerStatusData.requests o = map (url_of sample_host) [Printer; PrintJob; System] /\
  UltimakerStatusData.latest_data (UltimakerStatusData.self' o) =
    Some {["sampleTime" := VDatetime (seconds 1)]} /\
  state (sensor' (async_update session (seconds 0) (seconds 1) sample_source
                    (sample_sensor "status"))) = VStr "not connected".
Proof.
  apply (no_payload_reads_not_connected
           (session_of sample_host
              (fun ep => match ep with
                         | PrintJob => Ok {| json := Raise ValueError |}
                         | _ => Raise TimeoutError
                         end))
           (seconds 0) (seconds 1) sample_source sample_host (sample_sensor "status"));
    try reflexivity.
  intros ep. destruct ep.
  - left. reflexivity.
  - right. eexists _, _. split; reflexivity.
  - left. reflexivity.
Defined.

End Presentation.
